(** * kj-pdf-digitizer: the digitization core of [main.py]

    A shallow embedding of [extract_object_counts] and [digitize], with the
    seven regular expressions they use, and the properties of the rod
    bill of materials that they compute.

    - Text is a list of Unicode code points; a page is what
      [page.extract_text()] returns, a string or [None]; a document is the
      list of its pages.
    - A Python exception is the [Raise] of the type [result]; the functions
      that can raise are written in that monad.
    - [re] is modelled by a backtracking matcher with capturing groups
      ([Re.exec]), for the constructs that the patterns use, and by a
      relation [Re.den] that says what a pattern can match; the two are
      proved to agree.
    - The parts of the Python runtime that are tables or settings rather
      than code are the fields of the class [PyRuntime]: the decimal digits
      of Unicode, the case-insensitive comparison of [re.IGNORECASE], and
      the limit that CPython puts on the length of integer strings.  Every
      definition and theorem is parametric in it. *)

From Stdlib Require Import ZArith NArith Ascii String Lia.
From stdpp Require Import base option list gmap.

Open Scope N_scope.

(** ** Text *)

Definition char := N.
Definition text := list char.

(** Decoding of the UTF-8 string literals of this file into code points, so
    that the patterns can be written as they are in the source. *)
Fixpoint utf8_decode (bs : list N) : text :=
  match bs with
  | [] => []
  | b :: bs1 =>
    if b <? 128 then b :: utf8_decode bs1
    else if b <? 224 then
      match bs1 with
      | b1 :: bs2 => ((b - 192) * 64 + (b1 - 128)) :: utf8_decode bs2
      | _ => []
      end
    else if b <? 240 then
      match bs1 with
      | b1 :: b2 :: bs3 =>
        ((b - 224) * 4096 + (b1 - 128) * 64 + (b2 - 128)) :: utf8_decode bs3
      | _ => []
      end
    else
      match bs1 with
      | b1 :: b2 :: b3 :: bs4 =>
        ((b - 240) * 262144 + (b1 - 128) * 4096 + (b2 - 128) * 64 + (b3 - 128))
          :: utf8_decode bs4
      | _ => []
      end
  end.

Fixpoint string_bytes (s : string) : list N :=
  match s with
  | EmptyString => []
  | String a s1 => N_of_ascii a :: string_bytes s1
  end.

Definition utf8 (s : string) : text := utf8_decode (string_bytes s).

(** [str.isspace] for one character, which is also the class [\s] of [re] on
    [str] patterns: CPython's [Py_UNICODE_ISSPACE]. *)
Definition isspace (c : char) : bool :=
  (9 <=? c) && (c <=? 13) || (28 <=? c) && (c <=? 32)
  || (c =? 133) || (c =? 160) || (c =? 5760)
  || (8192 <=? c) && (c <=? 8202)
  || (c =? 8232) || (c =? 8233) || (c =? 8239) || (c =? 8287) || (c =? 12288).

(** Removal of the characters of a class at both ends of a string. *)
Fixpoint lstrip_by (p : char -> bool) (s : text) : text :=
  match s with
  | [] => []
  | c :: s1 => if p c then lstrip_by p s1 else s
  end.
Definition rstrip_by (p : char -> bool) (s : text) : text :=
  reverse (lstrip_by p (reverse s)).
Definition strip_by (p : char -> bool) (s : text) : text :=
  rstrip_by p (lstrip_by p s).

(** [str.strip()] with no argument. *)
Definition strip (s : text) : text := strip_by isspace s.

(** The white space that [int] accepts around a number: [int] reads ASCII
    characters with the C locale's [isspace], the others with
    [Py_UNICODE_ISSPACE]. *)
Definition int_space (c : char) : bool :=
  (9 <=? c) && (c <=? 13) || (c =? 32) || (127 <=? c) && isspace c.

(** The line boundaries of [str.splitlines()]. *)
Definition is_linebreak (c : char) : bool :=
  (10 <=? c) && (c <=? 13) || (28 <=? c) && (c <=? 30)
  || (c =? 133) || (c =? 8232) || (c =? 8233).

(** [str.splitlines()]: [cur] is the line being read, in reverse; [after_cr]
    says that the previous character was a carriage return, so that a line
    feed directly after it belongs to the same boundary. *)
Fixpoint splitlines_aux (cur : text) (after_cr : bool) (s : text) : list text :=
  match s with
  | [] => match cur with [] => [] | _ => [reverse cur] end
  | c :: s1 =>
    if (c =? 10) && after_cr then splitlines_aux [] false s1
    else if is_linebreak c then reverse cur :: splitlines_aux [] (c =? 13) s1
    else splitlines_aux (c :: cur) false s1
  end.

Definition splitlines (s : text) : list text := splitlines_aux [] false s.

(** ** Exceptions *)

Inductive exn := IndexError | ValueError | TypeError | AttributeError.

Inductive result (A : Type) :=
| Ok (a : A)
| Raise (e : exn).
Arguments Ok {A} a.
Arguments Raise {A} e.

(** An exception raised in a statement ends the function: the error monad,
    with stdpp's notation [x ← m; k]. *)
#[global] Instance result_bind : MBind result := fun A B f m =>
  match m with
  | Ok a => f a
  | Raise e => Raise e
  end.
#[global] Instance result_ret : MRet result := @Ok.

Definition returns {A} (m : result A) : Prop := exists a, m = Ok a.

(** ** The runtime tables *)

Class PyRuntime := {
  (** [Py_UNICODE_TODECIMAL]: the value of a decimal digit, of any script. *)
  uni_decimal : char -> option Z;
  (** Whether a pattern character and a text character are the same under
      [re.IGNORECASE]. *)
  uni_ieq : char -> char -> bool;
  (** [sys.get_int_max_str_digits()]; 0 means that there is no limit. *)
  int_max_str_digits : nat;
  (** On ASCII the decimal digits are the characters 0 to 9. *)
  uni_decimal_ascii : forall c, c < 128 ->
    uni_decimal c =
      if (48 <=? c) && (c <=? 57) then Some (Z.of_N c - 48)%Z else None;
  (** No decimal digit is white space. *)
  uni_decimal_nospace : forall c d, uni_decimal c = Some d -> isspace c = false
}.

(** [str.isdecimal] for one character, the class [\d] of [re]. *)
Definition isdecimal `{PyRuntime} (c : char) : bool :=
  match uni_decimal c with Some _ => true | None => false end.

(** ** Regular expressions *)

Module Re.

Inductive atom :=
| AChar (c : char)        (* a literal character *)
| ADigit                  (* \d *)
| ASpace                  (* \s *)
| AAny                    (* .  *)
| ASet (l : text).        (* [...] of literal characters *)

Inductive regex :=
| Eps
| Atom (a : atom)
| Lit (l : text)                      (* a run of literal characters *)
| Seq (r1 r2 : regex)
| Alt (r1 r2 : regex)                 (* r1|r2, r1 is tried first *)
| Star (greedy : bool) (a : atom)     (* a* or a*? *)
| Grp (n : nat) (r : regex).          (* capturing group number n *)

(** a+ and a+?, and r? *)
Definition Plus (greedy : bool) (a : atom) : regex := Seq (Atom a) (Star greedy a).
Definition Opt (r : regex) : regex := Alt r Eps.

Fixpoint seqs (rs : list regex) : regex :=
  match rs with
  | [] => Eps
  | [r] => r
  | r :: rs1 => Seq r (seqs rs1)
  end.

(** The groups that took part in a match, the most recent first. *)
Definition caps := list (nat * text).

Fixpoint group (c : caps) (n : nat) : option text :=
  match c with
  | [] => None
  | (m, s) :: c1 => if Nat.eqb m n then Some s else group c1 n
  end.

Section Engine.
Context `{PyRuntime}.
Variable icase : bool.

Definition char_match (p x : char) : bool :=
  if icase then uni_ieq p x else p =? x.

Definition atom_match (a : atom) (x : char) : bool :=
  match a with
  | AChar p => char_match p x
  | ADigit => isdecimal x
  | ASpace => isspace x
  | AAny => negb (x =? 10)
  | ASet l => existsb (fun p => char_match p x) l
  end.

Fixpoint lit_match (l s : text) : option text :=
  match l with
  | [] => Some s
  | p :: l1 =>
    match s with
    | x :: s1 => if char_match p x then lit_match l1 s1 else None
    | [] => None
    end
  end.

(** A greedy repetition takes one more character first and comes back to
    the continuation when that fails; a lazy one does the opposite. *)
Fixpoint star_greedy {R} (a : atom) (s : text) (k : text -> option R) : option R :=
  match s with
  | x :: s1 =>
    if atom_match a x then
      match star_greedy a s1 k with
      | Some r => Some r
      | None => k s
      end
    else k s
  | [] => k s
  end.

Fixpoint star_lazy {R} (a : atom) (s : text) (k : text -> option R) : option R :=
  match k s with
  | Some r => Some r
  | None =>
    match s with
    | x :: s1 => if atom_match a x then star_lazy a s1 k else None
    | [] => None
    end
  end.

(** The backtracking matcher, anchored at the start of [s]: [k] receives
    the rest of the text and the groups, and its failure makes the matcher
    try the next alternative. *)
Fixpoint exec {R} (r : regex) (s : text) (c : caps)
    (k : text -> caps -> option R) : option R :=
  match r with
  | Eps => k s c
  | Atom a =>
    match s with
    | x :: s1 => if atom_match a x then k s1 c else None
    | [] => None
    end
  | Lit l =>
    match lit_match l s with
    | Some s1 => k s1 c
    | None => None
    end
  | Seq r1 r2 => exec r1 s c (fun s1 c1 => exec r2 s1 c1 k)
  | Alt r1 r2 =>
    match exec r1 s c k with
    | Some x => Some x
    | None => exec r2 s c k
    end
  | Star true a => star_greedy a s (fun s1 => k s1 c)
  | Star false a => star_lazy a s (fun s1 => k s1 c)
  | Grp n r1 =>
    exec r1 s c (fun s1 c1 =>
      k s1 ((n, take (length s - length s1) s) :: c1))
  end.

Definition match_here (r : regex) (s : text) : option (text * caps) :=
  exec r s [] (fun s1 c1 => Some (s1, c1)).

(** [pattern.search(s)]: the match at the leftmost position that has one. *)
Fixpoint search (r : regex) (s : text) : option caps :=
  match match_here r s with
  | Some (_, c) => Some c
  | None =>
    match s with
    | [] => None
    | _ :: s1 => search r s1
    end
  end.

(** [pattern.findall(s)], as the groups of each match: the matches do not
    overlap, [skip] being the number of characters of the last match that
    are still to be passed over. *)
Fixpoint findall_from (r : regex) (skip : nat) (s : text) : list caps :=
  match skip with
  | S n =>
    match s with
    | [] => []
    | _ :: s1 => findall_from r n s1
    end
  | O =>
    match match_here r s with
    | Some (s', c) =>
      c :: match s with
           | [] => []
           | _ :: s1 => findall_from r (length s - length s' - 1) s1
           end
    | None =>
      match s with
      | [] => []
      | _ :: s1 => findall_from r 0 s1
      end
    end
  end.

Definition findall (r : regex) (s : text) : list caps := findall_from r 0 s.

(** What a pattern can match, as a relation: from [s] with groups [c] it
    leaves [s'] with groups [c']. *)
Fixpoint den (r : regex) (s : text) (c : caps) (s' : text) (c' : caps) : Prop :=
  match r with
  | Eps => s' = s /\ c' = c
  | Atom a => exists x, s = x :: s' /\ atom_match a x = true /\ c' = c
  | Lit l => lit_match l s = Some s' /\ c' = c
  | Seq r1 r2 => exists s1 c1, den r1 s c s1 c1 /\ den r2 s1 c1 s' c'
  | Alt r1 r2 => den r1 s c s' c' \/ den r2 s c s' c'
  | Star _ a => exists u, s = u ++ s' /\ forallb (atom_match a) u = true /\ c' = c
  | Grp n r1 =>
    exists c1, den r1 s c s' c1 /\ c' = (n, take (length s - length s') s) :: c1
  end.

End Engine.

(** *** What can be read off a pattern

    Syntactic checks, each with the property of [den] that it decides
    proved below. *)

(** The pattern has a group number [n]. *)
Fixpoint has_group (n : nat) (r : regex) : bool :=
  match r with
  | Seq r1 r2 | Alt r1 r2 => has_group n r1 || has_group n r2
  | Grp m r1 => Nat.eqb m n || has_group n r1
  | _ => false
  end.

(** Every match takes at least one decimal digit. *)
Fixpoint needs_digit (r : regex) : bool :=
  match r with
  | Atom ADigit => true
  | Seq r1 r2 => needs_digit r1 || needs_digit r2
  | Alt r1 r2 => needs_digit r1 && needs_digit r2
  | Grp _ r1 => needs_digit r1
  | _ => false
  end.

(** Every match takes decimal digits only. *)
Fixpoint only_digits (r : regex) : bool :=
  match r with
  | Eps | Atom ADigit | Star _ ADigit | Lit [] => true
  | Seq r1 r2 | Alt r1 r2 => only_digits r1 && only_digits r2
  | Grp _ r1 => only_digits r1
  | _ => false
  end.

(** \d+ and the like: one decimal digit or more, and nothing else. *)
Definition is_number (r : regex) : bool := only_digits r && needs_digit r.

(** After every match, group [n] holds what a sub-pattern accepted by [chk]
    has matched. *)
Fixpoint group_from (chk : regex -> bool) (n : nat) (r : regex) : bool :=
  match r with
  | Grp m r1 => if Nat.eqb m n then chk r1 else group_from chk n r1
  | Seq r1 r2 =>
    group_from chk n r2 || group_from chk n r1 && negb (has_group n r2)
  | Alt r1 r2 => group_from chk n r1 && group_from chk n r2
  | _ => false
  end.

End Re.

(** ** The patterns of [main.py] *)

Module Pat.
Import Re.

Record pattern := { icase : bool; re : regex }.

Definition digits : regex := Plus true ADigit.          (* \d+ *)
Definition spaces : regex := Star true ASpace.          (* \s* *)
Definition spaces1 : regex := Plus true ASpace.         (* \s+ *)

(** (Км-\d+|СЖм-\d+|СТм-\d+|Бм-\d+|Пм-\d+), without its parentheses. *)
Definition element_code : regex :=
  Alt (Seq (Lit (utf8 "Км-")) digits)
 (Alt (Seq (Lit (utf8 "СЖм-")) digits)
 (Alt (Seq (Lit (utf8 "СТм-")) digits)
 (Alt (Seq (Lit (utf8 "Бм-")) digits)
      (Seq (Lit (utf8 "Пм-")) digits)))).

Definition OBJECT_RE : pattern :=
  {| icase := false;
     re := seqs [Grp 1 element_code; spaces1; Grp 2 digits] |}.

Definition SPEC_ELEMENTS_RE : pattern :=
  {| icase := true;
     re := seqs [Lit (utf8 "Спецификация"); spaces1; Lit (utf8 "элементов");
                 spaces1; Grp 1 element_code] |}.

Definition SPEC_HEADER_RE : pattern :=
  {| icase := true;
     re := seqs [Grp 1 (Alt (Lit (utf8 "Колонна"))
                       (Alt (Lit (utf8 "Балка"))
                       (Alt (Lit (utf8 "Плита"))
                       (Alt (seqs [Lit (utf8 "Стены"); spaces1;
                                   Lit (utf8 "монолитные")])
                            (Lit (utf8 "Стена"))))));
                 spaces1; Grp 2 element_code] |}.

(** Изделие\s+закладное\s+(ЗД-\d+), the whole of [EMBEDDED_HEADER_RE] and the
    start of [EMBEDDED_LINE_RE]. *)
Definition embedded_item : list regex :=
  [Lit (utf8 "Изделие"); spaces1; Lit (utf8 "закладное"); spaces1;
   Grp 1 (Seq (Lit (utf8 "ЗД-")) digits)].

Definition EMBEDDED_LINE_RE : pattern :=
  {| icase := true; re := seqs (embedded_item ++ [spaces1; Grp 2 digits]) |}.

Definition EMBEDDED_HEADER_RE : pattern :=
  {| icase := true; re := seqs embedded_item |}.

(** The groups [fullname] and [qty] of [LINE_RE], [diameter] and [length] of
    [SIZE_RE], by their numbers. *)
Definition g_fullname : nat := 1.
Definition g_qty : nat := 2.
Definition g_diameter : nat := 1.
Definition g_length : nat := 2.

(** [re.VERBOSE] removes the white space of the pattern text. *)
Definition LINE_RE : pattern :=
  {| icase := true;
     re := seqs
       [Grp g_fullname (seqs
          [Opt (seqs [Lit (utf8 "ГОСТ"); spaces; digits; Atom (ASet (utf8 "-–"));
                      digits; spaces]);
           Lit (utf8 "Пруток"); spaces1;
           Star false AAny;
           Opt (Atom (ASet (utf8 "Ø∅"))); spaces; digits; spaces;
           Atom (ASet (utf8 "xх")); spaces; digits;
           Opt (seqs [Lit (utf8 "-"); spaces; Lit (utf8 "A");
                      Atom ADigit; Atom ADigit; Atom ADigit;
                      Opt (Lit (utf8 "С"))])]);
        spaces1;
        Grp g_qty digits] |}.

Definition SIZE_RE : pattern :=
  {| icase := true;
     re := seqs [Opt (Atom (ASet (utf8 "Ø∅"))); spaces; Grp g_diameter digits;
                 spaces; Atom (ASet (utf8 "xх")); spaces; Grp g_length digits] |}.

Definition search `{PyRuntime} (p : pattern) (s : text) : option caps :=
  Re.search (icase p) (re p) s.

Definition findall `{PyRuntime} (p : pattern) (s : text) : list caps :=
  Re.findall (icase p) (re p) s.

End Pat.

(** ** [int] on a string *)

Section PyInt.
Context `{PyRuntime}.

(** The digits of an integer literal: decimal digits of any script, with
    single underscores between digits. *)
Fixpoint int_body (after_digit : bool) (s : text) : option (list Z) :=
  match s with
  | [] => if after_digit then Some [] else None
  | c :: s1 =>
    match uni_decimal c with
    | Some d => cons d <$> int_body true s1
    | None => if (c =? 95) && after_digit then int_body false s1 else None
    end
  end.

Definition int_value (ds : list Z) : Z := foldl (fun a d => a * 10 + d)%Z 0%Z ds.

(** CPython refuses a decimal string of more than [int_max_str_digits]
    digits, when that limit is set and the string has more than 640. *)
Definition too_many_digits (n : nat) : bool :=
  Nat.ltb 640 n && Nat.ltb 0 int_max_str_digits && Nat.ltb int_max_str_digits n.

(** [int(s)] for a [str]: white space around, a sign, the digits. *)
Definition py_int (s : text) : result Z :=
  let s1 := strip_by int_space s in
  let '(neg, body) :=
    match s1 with
    | c :: t => if c =? 45 then (true, t) else if c =? 43 then (false, t) else (false, s1)
    | [] => (false, [])
    end in
  match int_body false body with
  | None => Raise ValueError
  | Some ds =>
    if too_many_digits (length ds) then Raise ValueError
    else Ok (if neg then (- int_value ds)%Z else int_value ds)
  end.

(** The number that a string of decimal digits denotes. *)
Definition number_value (u : text) : Z := int_value (omap uni_decimal u).

(** [int(m.group(n))]: [int(None)] is a [TypeError]. *)
Definition int_group (m : Re.caps) (n : nat) : result Z :=
  match Re.group m n with
  | Some s => py_int s
  | None => Raise TypeError
  end.
End PyInt.

(** ** The digitization logic *)

(** The pages of the document, each as what [page.extract_text()] returns:
    a string, or [None]. *)
Definition page := option text.

(** (element, fullname, diameter, length) *)
Definition key := (text * text * Z * Z)%type.

(** The value of one entry of [rows]: the counters "Прутки напрямую",
    "Прутки в ЗД" and "Кол-во ЗД". *)
Record counts := {
  rods_direct : Z;
  rods_in_zd : Z;
  zd_count : Z
}.

Definition counts_default : counts :=
  {| rods_direct := 0; rods_in_zd := 0; zd_count := 0 |}.

(** [rows[key]] of the [defaultdict], followed by a change [f] of the entry:
    an entry that is there is changed in place, a missing one is created
    from the default at the end of the dictionary. *)
Fixpoint rows_update (f : counts -> counts) (k : key) (rows : list (key * counts))
    : list (key * counts) :=
  match rows with
  | [] => [(k, f counts_default)]
  | (k1, c) :: rest =>
    if decide (k1 = k) then (k1, f c) :: rest
    else (k1, c) :: rows_update f k rest
  end.

Definition add_direct (qty : Z) (c : counts) : counts :=
  {| rods_direct := rods_direct c + qty; rods_in_zd := rods_in_zd c;
     zd_count := zd_count c |}.
Definition add_in_zd (qty : Z) (c : counts) : counts :=
  {| rods_direct := rods_direct c; rods_in_zd := rods_in_zd c + qty;
     zd_count := zd_count c |}.
Definition set_zd_count (n : Z) (c : counts) : counts :=
  {| rods_direct := rods_direct c; rods_in_zd := rods_in_zd c; zd_count := n |}.

(** The local variables of [digitize] that live across lines. *)
Record scan_state := {
  current_element : option text;
  embedded_qty : Z;
  in_embedded : bool;
  rows : list (key * counts)
}.

Definition scan_init : scan_state :=
  {| current_element := None; embedded_qty := 0; in_embedded := false; rows := [] |}.

(** One row of the result, with the columns "Элемент", "Наименование",
    "Диаметр", "Длина, мм", "Прутки напрямую", "Прутки в ЗД",
    "Количество объектов", "Количество ЗД" and "Общее количество". *)
Record out_row := {
  row_element : text;
  row_name : text;
  row_diameter : Z;
  row_length : Z;
  row_direct : Z;
  row_in_zd : Z;
  row_objects : Z;
  row_zd_count : Z;
  row_total : Z
}.

Definition row_key (r : out_row) : key :=
  (row_element r, row_name r, row_diameter r, row_length r).

Section Digitize.
Context `{PyRuntime}.
Import Pat.

(** [dict.get(element, 1)] *)
Definition object_multiplier (object_counts : gmap text Z) (element : text) : Z :=
  default 1%Z (object_counts !! element).

(** The dict comprehension [{m: int(q) for m, q in ...}] over the tuples of
    [findall], where a group that took no part is the empty string. *)
Fixpoint object_dict (acc : gmap text Z) (ms : list Re.caps) : result (gmap text Z) :=
  match ms with
  | [] => Ok acc
  | m :: ms1 =>
    v ← py_int (default [] (Re.group m 2));
    object_dict (<[default [] (Re.group m 1) := v]> acc) ms1
  end.

Definition extract_object_counts (pages : list page) : result (gmap text Z) :=
  match pages with
  | [] => Raise IndexError
  | p :: _ =>
    let text := match p with Some (c :: t) => c :: t | _ => [] end in
    object_dict ∅ (findall OBJECT_RE text)
  end.

(** [not line or not line.strip()] *)
Definition blank (line : text) : bool :=
  match line with
  | [] => true
  | _ => match strip line with [] => true | _ => false end
  end.

Definition set_element (st : scan_state) (e : option text) : scan_state :=
  {| current_element := e; embedded_qty := 0; in_embedded := false;
     rows := rows st |}.

(** The body of the loop over the lines of a page. *)
Definition digitize_line (st : scan_state) (line : text) : result scan_state :=
  if blank line then Ok st else
  match search SPEC_ELEMENTS_RE line with
  | Some spec_elements => Ok (set_element st (Re.group spec_elements 1))
  | None =>
  match search SPEC_HEADER_RE line with
  | Some header => Ok (set_element st (Re.group header 2))
  | None =>
  match current_element st with
  | None | Some [] => Ok st
  | Some element =>
  match search EMBEDDED_LINE_RE line with
  | Some embedded_line =>
    q ← int_group embedded_line 2;
    Ok {| current_element := current_element st; embedded_qty := q;
          in_embedded := in_embedded st; rows := rows st |}
  | None =>
  match search EMBEDDED_HEADER_RE line with
  | Some _ =>
    Ok {| current_element := current_element st; embedded_qty := embedded_qty st;
          in_embedded := true; rows := rows st |}
  | None =>
  match search LINE_RE line with
  | None => Ok st
  | Some line_match =>
    fullname ← match Re.group line_match g_fullname with
               | Some s => Ok (strip s)
               | None => Raise AttributeError
               end;
    qty ← int_group line_match g_qty;
    match search SIZE_RE fullname with
    | None => Ok st
    | Some size =>
      diameter ← int_group size g_diameter;
      length ← int_group size g_length;
      let k : key := (element, fullname, diameter, length) in
      let rows1 :=
        if in_embedded st
        then rows_update (set_zd_count (embedded_qty st)) k
               (rows_update (add_in_zd qty) k (rows st))
        else rows_update (add_direct qty) k (rows st) in
      Ok {| current_element := current_element st;
            embedded_qty := embedded_qty st;
            in_embedded := in_embedded st; rows := rows1 |}
    end
  end end end end end end.

Fixpoint digitize_lines (st : scan_state) (lines : list text) : result scan_state :=
  match lines with
  | [] => Ok st
  | line :: rest => st1 ← digitize_line st line; digitize_lines st1 rest
  end.

(** The body of the loop over the pages. *)
Definition digitize_page (st : scan_state) (page_index : nat) (p : page)
    : result scan_state :=
  if Nat.eqb page_index 0 then Ok st else
  match p with
  | None | Some [] => Ok st
  | Some text => digitize_lines st (splitlines text)
  end.

Fixpoint digitize_pages (st : scan_state) (page_index : nat) (pages : list page)
    : result scan_state :=
  match pages with
  | [] => Ok st
  | p :: rest =>
    st1 ← digitize_page st page_index p;
    digitize_pages st1 (S page_index) rest
  end.

(** The second loop: one row for each entry of [rows], in its order. *)
Definition result_row (object_counts : gmap text Z) (kc : key * counts) : out_row :=
  let '((element, fullname, d, l), c) := kc in
  let obj_qty := object_multiplier object_counts element in
  let total := (rods_direct c * obj_qty + rods_in_zd c * zd_count c * obj_qty)%Z in
  {| row_element := element; row_name := fullname; row_diameter := d;
     row_length := l; row_direct := rods_direct c; row_in_zd := rods_in_zd c;
     row_objects := obj_qty; row_zd_count := zd_count c; row_total := total |}.

Definition digitize (pages : list page) (object_counts : gmap text Z)
    : result (list out_row) :=
  st ← digitize_pages scan_init 0 pages;
  Ok (result_row object_counts <$> rows st).

End Digitize.

(** ** The loop body as a classifier and an aggregation table

    The same loop body in two steps, for the statements about rod events:
    [classify] decides what a line is, [apply_action] changes the state.
    [digitize_line_classify] below shows that this is [digitize_line]. *)

Inductive action :=
| Skip
| SetElement (e : option text)
| SetQuantity (q : Z)
| EnterEmbedded
| Rod (name : text) (diameter length qty : Z).

(** A rod-quantity event: the key, the quantity, and the embedded context
    of the classifier at that line. *)
Record event := {
  ev_key : key;
  ev_qty : Z;
  ev_embedded : bool;
  ev_zd_count : Z
}.

Definition record_event (rs : list (key * counts)) (ev : event) : list (key * counts) :=
  if ev_embedded ev
  then rows_update (set_zd_count (ev_zd_count ev)) (ev_key ev)
         (rows_update (add_in_zd (ev_qty ev)) (ev_key ev) rs)
  else rows_update (add_direct (ev_qty ev)) (ev_key ev) rs.

Definition action_event (st : scan_state) (a : action) : option event :=
  match a, current_element st with
  | Rod name d l q, Some element =>
    Some {| ev_key := (element, name, d, l); ev_qty := q;
            ev_embedded := in_embedded st; ev_zd_count := embedded_qty st |}
  | _, _ => None
  end.

Definition apply_action (st : scan_state) (a : action) : scan_state :=
  match a with
  | Skip => st
  | SetElement e =>
    {| current_element := e; embedded_qty := 0; in_embedded := false; rows := rows st |}
  | SetQuantity q =>
    {| current_element := current_element st; embedded_qty := q;
       in_embedded := in_embedded st; rows := rows st |}
  | EnterEmbedded =>
    {| current_element := current_element st; embedded_qty := embedded_qty st;
       in_embedded := true; rows := rows st |}
  | Rod _ _ _ _ =>
    match action_event st a with
    | Some ev =>
      {| current_element := current_element st; embedded_qty := embedded_qty st;
         in_embedded := in_embedded st; rows := record_event (rows st) ev |}
    | None => st
    end
  end.

Section Classifier.
Context `{PyRuntime}.
Import Pat.

(** Whether a line matches the section marker or the element header. *)
Definition is_header (line : text) : bool :=
  match search SPEC_ELEMENTS_RE line, search SPEC_HEADER_RE line with
  | None, None => false
  | _, _ => true
  end.

(** The code that a section marker or an element header announces. *)
Definition header_code (line : text) : option text :=
  match search SPEC_ELEMENTS_RE line with
  | Some m => Re.group m 1
  | None =>
    match search SPEC_HEADER_RE line with
    | Some m => Re.group m 2
    | None => None
    end
  end.

Definition classify (cur : option text) (line : text) : result action :=
  if blank line then Ok Skip else
  match search SPEC_ELEMENTS_RE line with
  | Some m => Ok (SetElement (Re.group m 1))
  | None =>
  match search SPEC_HEADER_RE line with
  | Some m => Ok (SetElement (Re.group m 2))
  | None =>
  match cur with
  | None | Some [] => Ok Skip
  | Some _ =>
  match search EMBEDDED_LINE_RE line with
  | Some m => q ← int_group m 2; Ok (SetQuantity q)
  | None =>
  match search EMBEDDED_HEADER_RE line with
  | Some _ => Ok EnterEmbedded
  | None =>
  match search LINE_RE line with
  | None => Ok Skip
  | Some m =>
    match Re.group m g_fullname with
    | None => Raise AttributeError
    | Some s =>
      qty ← int_group m g_qty;
      match search SIZE_RE (strip s) with
      | None => Ok Skip
      | Some size =>
        d ← int_group size g_diameter;
        l ← int_group size g_length;
        Ok (Rod (strip s) d l qty)
      end
    end
  end end end end end end.

(** The rod events of a run over lines, in the order of the lines. *)
Fixpoint line_events (st : scan_state) (lines : list text) : result (list event) :=
  match lines with
  | [] => Ok []
  | line :: rest =>
    a ← classify (current_element st) line;
    evs ← line_events (apply_action st a) rest;
    Ok (match action_event st a with Some ev => ev :: evs | None => evs end)
  end.

(** The lines that a page contributes to the scan. *)
Definition page_lines (p : page) : list text :=
  match p with
  | None | Some [] => []
  | Some text => splitlines text
  end.

(** All lines of the pages after page 0, in order. *)
Definition document_lines (pages : list page) : list text :=
  concat (page_lines <$> tail pages).

Definition document_events (pages : list page) : result (list event) :=
  line_events scan_init (document_lines pages).

(** The longest run of decimal digits of a line. *)
Fixpoint digit_run (cur best : nat) (s : text) : nat :=
  match s with
  | [] => Nat.max cur best
  | c :: s1 =>
    if isdecimal c then digit_run (S cur) best s1
    else digit_run 0 (Nat.max cur best) s1
  end.

(** No number of the line is too long for [int]. *)
Definition fits (line : text) : bool := negb (too_many_digits (digit_run 0 0 line)).

End Classifier.

(** The keys of a sequence in the order of their first occurrence: each key
    once, where it occurs first. *)
Fixpoint first_occurrences (ks : list key) : list key :=
  match ks with
  | [] => []
  | k :: rest => k :: filter (fun k' => k' <> k) (first_occurrences rest)
  end.

(** The keys of a dictionary after [k] is looked up with a default. *)
Definition note_key (seen : list key) (k : key) : list key :=
  if decide (k ∈ seen) then seen else seen ++ [k].

(** The embedded instance count of the last embedded event of a key, 0 when
    it has none; and the sums of its direct and embedded quantities. *)
Definition last_zd_count (k : key) (evs : list event) : Z :=
  foldl (fun z ev => if ev_embedded ev && bool_decide (ev_key ev = k)
                     then ev_zd_count ev else z) 0%Z evs.
Definition sum_qty (embedded : bool) (k : key) (evs : list event) : Z :=
  foldl (fun z ev => if bool_decide (ev_embedded ev = embedded) && bool_decide (ev_key ev = k)
                     then (z + ev_qty ev)%Z else z) 0%Z evs.

Definition totals (k : key) (evs : list event) : counts :=
  {| rods_direct := sum_qty false k evs; rods_in_zd := sum_qty true k evs;
     zd_count := last_zd_count k evs |}.

(** [rows.get(key)]: the entry of a key in the table. *)
Fixpoint rows_get (k : key) (rs : list (key * counts)) : option counts :=
  match rs with
  | [] => None
  | (k1, c) :: rest => if decide (k1 = k) then Some c else rows_get k rest
  end.

(** What an event does to the entry of its key. *)
Definition count_event (ev : event) (c : counts) : counts :=
  if ev_embedded ev
  then set_zd_count (ev_zd_count ev) (add_in_zd (ev_qty ev) c)
  else add_direct (ev_qty ev) c.

(** The pairs of [findall] as the dict comprehension reads them, and the
    digits paired with the last occurrence of a code. *)
Definition pair_of (m : Re.caps) : text * text :=
  (default [] (Re.group m 1), default [] (Re.group m 2)).
Definition last_pair (code : text) (ps : list (text * text)) : option text :=
  foldl (fun o p => if bool_decide (p.1 = code) then Some p.2 else o) None ps.

(** ** A runtime to compute with

    ASCII digits, the case pairs of the Latin and Russian alphabets, and the
    default limit of 4300 digits. *)

Definition basic_decimal (c : char) : option Z :=
  if (48 <=? c) && (c <=? 57) then Some (Z.of_N c - 48)%Z else None.

Definition basic_lower (c : char) : char :=
  if (65 <=? c) && (c <=? 90) then c + 32
  else if (1040 <=? c) && (c <=? 1071) then c + 32
  else if c =? 1025 then 1105
  else if c =? 216 then 248
  else c.

Definition basic_ieq (p x : char) : bool := basic_lower p =? basic_lower x.

Definition basic_rt : PyRuntime.
Proof.
  refine {| uni_decimal := basic_decimal;
            uni_ieq := basic_ieq;
            int_max_str_digits := 4300;
            uni_decimal_ascii := fun c _ => eq_refl |}.
  intros c d. unfold basic_decimal, isspace.
  destruct (48 <=? c) eqn:E1; [|discriminate].
  destruct (c <=? 57) eqn:E2; [|discriminate].
  intros _. apply N.leb_le in E1, E2.
  repeat match goal with
  | |- context [?a <=? ?b] => destruct (N.leb_spec a b); try lia
  | |- context [?a =? ?b] => destruct (N.eqb_spec a b); try lia
  end; reflexivity.
Defined.

(** The same runtime with the limit on integer strings switched off. *)
Definition unlimited_rt : PyRuntime :=
  {| uni_decimal := basic_decimal;
     uni_ieq := basic_ieq;
     int_max_str_digits := 0;
     uni_decimal_ascii := uni_decimal_ascii (PyRuntime := basic_rt);
     uni_decimal_nospace := uni_decimal_nospace (PyRuntime := basic_rt) |}.

(** ** Documents to compute with *)

Definition nl : text := [10].
Definition unlines (ls : list text) : text :=
  concat ((fun l => l ++ nl) <$> ls).

(** A summary page, then a page with a column that has a direct rod line
    and a rod line inside an embedded item. *)
Definition doc_column : list page :=
  [Some (utf8 "Км-1 3");
   Some (unlines [utf8 "Колонна Км-1";
                  utf8 "Пруток ⌀12x500 5";
                  utf8 "Изделие закладное ЗД-1";
                  utf8 "Изделие закладное ЗД-1 4";
                  utf8 "Пруток ⌀10x300 2"])].

Definition counts_column : gmap text Z := {[ utf8 "Км-1" := 3%Z ]}.

Definition out_column : list out_row :=
  Eval vm_compute in
    match @digitize basic_rt doc_column counts_column with
    | Ok out => out
    | Raise _ => []
    end.

(** Two quantity lines of an embedded item before two rod lines of the same
    key. *)
Definition doc_two_quantities : list page :=
  [None;
   Some (unlines [utf8 "Колонна Км-1";
                  utf8 "Изделие закладное ЗД-1";
                  utf8 "Изделие закладное ЗД-1 4";
                  utf8 "Пруток 10x300 2";
                  utf8 "Изделие закладное ЗД-1 7";
                  utf8 "Пруток 10x300 2"])].

Definition out_two_quantities : list out_row :=
  Eval vm_compute in
    match @digitize basic_rt doc_two_quantities ∅ with
    | Ok out => out
    | Raise _ => []
    end.

(** A rod line with a quantity of 4301 digits. *)
Definition doc_long_number : list page :=
  [None;
   Some (unlines [utf8 "Колонна Км-1";
                  utf8 "Пруток 12x500 " ++ replicate 4301 49])].

(** A summary page that lists a code twice. *)
Definition page_duplicate_code : page :=
  Some (utf8 "Км-1 3  Бм-2 10  Км-1 5").

(** A state inside an embedded item of column Км-1. *)
Definition st_in_embedded : scan_state :=
  {| current_element := Some (utf8 "Км-1"); embedded_qty := 4;
     in_embedded := true; rows := [] |}.

(** [u] is a run of consecutive characters of [s]. *)
Definition segment (u s : text) : Prop := exists a b, s = a ++ u ++ b.

(** ** The core of [process_pdf]

    The two calls that [process_pdf] makes on the opened document: the
    object counts of page 0, then the scan with them. *)

Definition digitize_document `{PyRuntime} (pages : list page) : result (list out_row) :=
  object_counts ← extract_object_counts pages;
  digitize pages object_counts.

(** The text of a page as [extract_object_counts] reads it:
    [extract_text() or ""]. *)
Definition page_text (p : page) : text :=
  match p with
  | Some (c :: t) => c :: t
  | _ => []
  end.

(** The current element after a run over lines: the code of the last header
    line, or the element that was current before. *)
Definition element_after `{PyRuntime} (cur : option text) (lines : list text) : option text :=
  foldl (fun cur line => if is_header line then header_code line else cur) cur lines.

(** A document whose second page has a line of white space and one without
    any digit between its rod lines. *)
Definition doc_with_noise : list page :=
  [Some (utf8 "Бм-2 6");
   Some (unlines [utf8 "Балка Бм-2";
                  utf8 "Пруток 12x500 5";
                  utf8 "    ";
                  utf8 "Марка Обозначение Наименование";
                  utf8 "Пруток 12x500 3";
                  utf8 "Изделие закладное ЗД-4";
                  utf8 "Пруток 8x200 2"])].

Definition out_with_noise : list out_row :=
  Eval vm_compute in
    match @digitize_document basic_rt doc_with_noise with
    | Ok out => out
    | Raise _ => []
    end.

Section KeyPredicates.
Context `{PyRuntime}.
Import Pat.

(** The diameter and the length of a key are those that [SIZE_RE] reads in
    its name. *)
Definition size_of_name (k : key) : Prop :=
  let '(_, name, d, l) := k in
  exists size, search SIZE_RE name = Some size /\
    int_group size g_diameter = Ok d /\ int_group size g_length = Ok l.

(** Where the element and the name of a key come from. *)
Definition key_from_lines (lines : list text) (k : key) : Prop :=
  let '(element, name, _, _) := k in
  (exists line, line ∈ lines /\ is_header line = true /\
     header_code line = Some element /\ element <> [] /\ segment element line) /\
  (exists line, line ∈ lines /\ segment name line /\ name <> [] /\ strip name = name).

End KeyPredicates.

(** No number of a row is negative. *)
Definition row_nonneg (r : out_row) : Prop :=
  (0 <= row_diameter r /\ 0 <= row_length r /\ 0 <= row_direct r /\
   0 <= row_in_zd r /\ 0 <= row_zd_count r /\ 0 <= row_objects r /\
   0 <= row_total r)%Z.

(** * Properties *)

(** ** The matcher and the relation [den] agree *)

Section ReFacts.
Context `{PyRuntime}.
Variable icase : bool.
Import Re.

Lemma lit_match_app (l s s' : text) :
  lit_match icase l s = Some s' ->
  exists u, s = u ++ s' /\ length u = length l.
Proof.
  revert s. induction l as [|p l IH]; intros s; simpl.
  - intros [= ->]. by exists [].
  - destruct s as [|x s]; [done|].
    destruct (char_match icase p x); [|done].
    intros Hm. destruct (IH _ Hm) as (u & -> & Hu).
    exists (x :: u). simpl. by rewrite Hu.
Qed.

Lemma star_greedy_sound {R} a s (k : text -> option R) x :
  star_greedy icase a s k = Some x ->
  exists u s', s = u ++ s' /\ forallb (atom_match icase a) u = true /\ k s' = Some x.
Proof.
  induction s as [|y s IH]; simpl.
  - intros Hk. by exists [], [].
  - destruct (atom_match icase a y) eqn:Ha.
    + destruct (star_greedy icase a s k) eqn:Hs.
      * intros [= ->]. destruct (IH eq_refl) as (u & s' & -> & Hu & Hk).
        exists (y :: u), s'. simpl. by rewrite Ha, Hu.
      * intros Hk. by exists [], (y :: s).
    + intros Hk. by exists [], (y :: s).
Qed.

Lemma star_greedy_complete {R} a u s' (k : text -> option R) x :
  forallb (atom_match icase a) u = true -> k s' = Some x ->
  is_Some (star_greedy icase a (u ++ s') k).
Proof.
  intros Hu Hk. induction u as [|y u IH]; simpl.
  - destruct s' as [|z s']; simpl; [by rewrite Hk|].
    destruct (atom_match icase a z); [|by rewrite Hk].
    destruct (star_greedy icase a s' k); [done|by rewrite Hk].
  - simpl in Hu. apply andb_true_iff in Hu as [-> Hu].
    destruct (IH Hu) as [r ->]. done.
Qed.

Lemma star_lazy_sound {R} a s (k : text -> option R) x :
  star_lazy icase a s k = Some x ->
  exists u s', s = u ++ s' /\ forallb (atom_match icase a) u = true /\ k s' = Some x.
Proof.
  induction s as [|y s IH]; simpl.
  - destruct (k []) eqn:Hk; [|done]. intros [= ->]. by exists [], [].
  - destruct (k (y :: s)) eqn:Hk.
    + intros [= ->]. by exists [], (y :: s).
    + destruct (atom_match icase a y) eqn:Ha; [|done].
      intros Hs. destruct (IH Hs) as (u & s' & -> & Hu & Hk').
      exists (y :: u), s'. simpl. by rewrite Ha, Hu.
Qed.

Lemma star_lazy_complete {R} a u s' (k : text -> option R) x :
  forallb (atom_match icase a) u = true -> k s' = Some x ->
  is_Some (star_lazy icase a (u ++ s') k).
Proof.
  intros Hu Hk. induction u as [|y u IH]; simpl.
  - destruct s' as [|z s']; simpl; by rewrite Hk.
  - simpl in Hu. apply andb_true_iff in Hu as [-> Hu].
    destruct (k (y :: u ++ s')); [done|]. by apply IH.
Qed.

(** Whatever the matcher returns comes from a match that [den] allows. *)
Lemma exec_sound {R} r s c (k : text -> caps -> option R) x :
  exec icase r s c k = Some x ->
  exists s' c', den icase r s c s' c' /\ k s' c' = Some x.
Proof.
  revert s c k x.
  induction r as [|a|l|r1 IH1 r2 IH2|r1 IH1 r2 IH2|g a|n r IH];
    intros s c k x; simpl.
  - intros Hk. by exists s, c.
  - destruct s as [|y s]; [done|].
    destruct (atom_match icase a y) eqn:Ha; [|done].
    intros Hk. exists s, c. split; [|done]. by exists y.
  - destruct (lit_match icase l s) as [s1|] eqn:Hl; [|done].
    intros Hk. by exists s1, c.
  - intros He. destruct (IH1 _ _ _ _ He) as (s1 & c1 & H1 & He2).
    destruct (IH2 _ _ _ _ He2) as (s' & c' & H2 & Hk).
    exists s', c'. split; [|done]. by exists s1, c1.
  - destruct (exec icase r1 s c k) eqn:He1.
    + intros [= ->]. destruct (IH1 _ _ _ _ He1) as (s' & c' & H1 & Hk).
      exists s', c'. split; [by left|done].
    + intros He2. destruct (IH2 _ _ _ _ He2) as (s' & c' & H2 & Hk).
      exists s', c'. split; [by right|done].
  - destruct g; intros He.
    + destruct (star_greedy_sound _ _ _ _ He) as (u & s' & -> & Hu & Hk).
      exists s', c. split; [|done]. by exists u.
    + destruct (star_lazy_sound _ _ _ _ He) as (u & s' & -> & Hu & Hk).
      exists s', c. split; [|done]. by exists u.
  - intros He. destruct (IH _ _ _ _ He) as (s' & c' & Hd & Hk).
    eexists s', _. split; [|exact Hk]. by exists c'.
Qed.

(** Backtracking is exhaustive: when [den] allows a match that the
    continuation accepts, the matcher finds one. *)
Lemma exec_complete {R} r s c s' c' (k : text -> caps -> option R) x :
  den icase r s c s' c' -> k s' c' = Some x ->
  is_Some (exec icase r s c k).
Proof.
  revert s c s' c' k x.
  induction r as [|a|l|r1 IH1 r2 IH2|r1 IH1 r2 IH2|g a|n r IH];
    intros s c s' c' k x; simpl.
  - intros [-> ->] Hk. by rewrite Hk.
  - intros (y & -> & Ha & ->) Hk. by rewrite Ha, Hk.
  - intros [Hl ->] Hk. by rewrite Hl, Hk.
  - intros (s1 & c1 & H1 & H2) Hk.
    destruct (IH2 _ _ _ _ _ _ H2 Hk) as [y Hy].
    exact (IH1 _ _ _ _ _ _ H1 Hy).
  - intros [H1|H2] Hk.
    + destruct (IH1 _ _ _ _ _ _ H1 Hk) as [y ->]. done.
    + destruct (exec icase r1 s c k); [done|]. exact (IH2 _ _ _ _ _ _ H2 Hk).
  - intros (u & -> & Hu & ->) Hk. destruct g.
    + exact (star_greedy_complete _ _ _ (fun s1 => k s1 c) _ Hu Hk).
    + exact (star_lazy_complete _ _ _ (fun s1 => k s1 c) _ Hu Hk).
  - intros (c1 & Hd & ->) Hk.
    exact (IH _ _ _ _ (fun s1 c2 => k s1 ((n, take (length s - length s1) s) :: c2)) _ Hd Hk).
Qed.

(** A match takes a prefix of the text. *)
Lemma den_consumes r s c s' c' :
  den icase r s c s' c' -> exists u, s = u ++ s'.
Proof.
  revert s c s' c'.
  induction r as [|a|l|r1 IH1 r2 IH2|r1 IH1 r2 IH2|g a|n r IH];
    intros s c s' c'; simpl.
  - intros [-> _]. by exists [].
  - intros (y & -> & _). by exists [y].
  - intros [Hl _]. destruct (lit_match_app _ _ _ Hl) as (u & -> & _). by exists u.
  - intros (s1 & c1 & H1 & H2).
    destruct (IH1 _ _ _ _ H1) as [u1 ->]. destruct (IH2 _ _ _ _ H2) as [u2 ->].
    exists (u1 ++ u2). by rewrite <-app_assoc.
  - intros [H1|H2]; eauto.
  - intros (u & -> & _). by exists u.
  - intros (c1 & Hd & _). eauto.
Qed.

Lemma take_consumed (u s' : text) :
  take (length (u ++ s') - length s') (u ++ s') = u.
Proof.
  rewrite length_app. replace (length u + length s' - length s')%nat with (length u) by lia.
  by rewrite take_app_length.
Qed.

Lemma search_sound r s c :
  search icase r s = Some c ->
  exists pre s1 s', s = pre ++ s1 /\ den icase r s1 [] s' c.
Proof.
  induction s as [|y s IH]; simpl; unfold match_here.
  - destruct (exec icase r [] [] _) as [[s' c']|] eqn:He; [|done].
    intros [= ->]. destruct (exec_sound _ _ _ _ _ He) as (s1 & c1 & Hd & [= -> ->]).
    by exists [], [], s'.
  - destruct (exec icase r (y :: s) [] _) as [[s' c']|] eqn:He.
    + intros [= ->]. destruct (exec_sound _ _ _ _ _ He) as (s1 & c1 & Hd & [= -> ->]).
      by exists [], (y :: s), s'.
    + intros Hs. destruct (IH Hs) as (pre & s1 & s' & -> & Hd).
      by exists (y :: pre), s1, s'.
Qed.

Lemma search_complete r pre s s' c :
  den icase r s [] s' c -> is_Some (search icase r (pre ++ s)).
Proof.
  intros Hd.
  assert (Hhere : is_Some (match_here icase r s)).
  { exact (exec_complete _ _ _ _ _ (fun s1 c1 => Some (s1, c1)) _ Hd eq_refl). }
  assert (Hs : is_Some (search icase r s)).
  { destruct Hhere as [[s1 c1] Hm]. destruct s; simpl; by rewrite Hm. }
  induction pre as [|y pre IH]; [done|]. simpl.
  destruct (match_here icase r (y :: pre ++ s)) as [[s1 c1]|]; done.
Qed.

Lemma findall_from_sound r skip s c :
  c ∈ findall_from icase r skip s ->
  exists pre s1 s', s = pre ++ s1 /\ den icase r s1 [] s' c.
Proof.
  revert skip. induction s as [|y s IH]; intros skip; simpl.
  - destruct skip; [|by intros ?%elem_of_nil].
    destruct (match_here icase r []) as [[s' c']|] eqn:He; [|by intros ?%elem_of_nil].
    intros ->%list_elem_of_singleton.
    destruct (exec_sound _ _ _ _ _ He) as (s1 & c1 & Hd & [= -> ->]).
    by exists [], [], s'.
  - destruct skip as [|n].
    + destruct (match_here icase r (y :: s)) as [[s' c']|] eqn:He.
      * intros [->|Hin]%elem_of_cons.
        -- destruct (exec_sound _ _ _ _ _ He) as (s1 & c1 & Hd & [= -> ->]).
           by exists [], (y :: s), s'.
        -- destruct (IH _ Hin) as (pre & s1 & s2 & -> & Hd).
           by exists (y :: pre), s1, s2.
      * intros Hin. destruct (IH _ Hin) as (pre & s1 & s2 & -> & Hd).
        by exists (y :: pre), s1, s2.
    + intros Hin. destruct (IH _ Hin) as (pre & s1 & s2 & -> & Hd).
      by exists (y :: pre), s1, s2.
Qed.

End ReFacts.

(** ** Strings *)

Section Strip.
Variable p : char -> bool.

Lemma lstrip_by_core (a b : text) (x : char) :
  p x = false ->
  exists a0 a', a = a0 ++ a' /\ lstrip_by p (a ++ x :: b) = a' ++ x :: b.
Proof.
  intros Hx. induction a as [|y a IH]; simpl.
  - exists [], []. by rewrite Hx.
  - destruct (p y).
    + destruct IH as (a0 & a' & -> & IH). by exists (y :: a0), a'.
    + by exists [], (y :: a).
Qed.

Lemma rstrip_by_core (a b : text) (x : char) :
  p x = false ->
  exists b' b0, b = b' ++ b0 /\ rstrip_by p (a ++ x :: b) = a ++ x :: b'.
Proof.
  intros Hx. unfold rstrip_by.
  rewrite reverse_app, reverse_cons, <-app_assoc. simpl.
  destruct (lstrip_by_core (reverse b) (reverse a) x Hx) as (r0 & r' & Hr & ->).
  exists (reverse r'), (reverse r0). split.
  - rewrite <-reverse_app, <-Hr. by rewrite reverse_involutive.
  - rewrite reverse_app, reverse_cons, reverse_involutive, <-app_assoc. done.
Qed.

(** Stripping keeps a part of the string that starts and ends with
    characters that are not stripped. *)
Lemma strip_by_core (a b m1 m2 : text) (x y : char) :
  p x = false -> p y = false -> x :: m1 = m2 ++ [y] ->
  exists a0 a' b' b0, a = a0 ++ a' /\ b = b' ++ b0 /\
    strip_by p (a ++ (x :: m1) ++ b) = a' ++ (x :: m1) ++ b'.
Proof.
  intros Hx Hy Hm. unfold strip_by. simpl.
  destruct (lstrip_by_core a (m1 ++ b) x Hx) as (a0 & a' & -> & ->).
  change (a' ++ x :: m1 ++ b) with (a' ++ (x :: m1) ++ b).
  rewrite Hm, <-(app_assoc m2). simpl. rewrite app_assoc.
  destruct (rstrip_by_core (a' ++ m2) b y Hy) as (b' & b0 & -> & ->).
  exists a0, a', b', b0. repeat split.
  rewrite <-!app_assoc. f_equal.
  change (x :: m1 ++ b') with ((x :: m1) ++ b'). rewrite Hm.
  by rewrite <-app_assoc.
Qed.

(** A string none of whose characters is in the class stays as it is. *)
Lemma strip_by_id (u : text) :
  (forall c, c ∈ u -> p c = false) -> strip_by p u = u.
Proof.
  intros Hu. destruct u as [|x m1]; [done|].
  destruct (exists_last (l := x :: m1)) as (m2 & y & Hm); [done|].
  assert (Hx : p x = false) by (apply Hu; by left).
  assert (Hy : p y = false).
  { apply Hu. rewrite Hm. apply elem_of_app. right. by left. }
  destruct (strip_by_core [] [] m1 m2 x y Hx Hy Hm) as (a0 & a' & b' & b0 & Ha & Hb & Hs).
  symmetry in Ha, Hb. apply app_eq_nil in Ha as [_ ->]. apply app_eq_nil in Hb as [-> _].
  simpl in Hs. rewrite ?app_nil_r in Hs. exact Hs.
Qed.

Lemma lstrip_by_suffix (s : text) : exists a, s = a ++ lstrip_by p s.
Proof.
  induction s as [|y s [a IH]]; simpl; [by exists []|].
  destruct (p y); [|by exists []].
  exists (y :: a). simpl. by rewrite <-IH.
Qed.

Lemma strip_by_segment (s : text) : segment (strip_by p s) s.
Proof.
  unfold strip_by, rstrip_by. destruct (lstrip_by_suffix s) as [a Ha].
  destruct (lstrip_by_suffix (reverse (lstrip_by p s))) as [b Hb].
  exists a, (reverse b). rewrite Ha at 1. f_equal.
  rewrite <-reverse_app, <-Hb. by rewrite reverse_involutive.
Qed.

End Strip.

Lemma strip_core (a b m1 m2 : text) (x y : char) :
  isspace x = false -> isspace y = false -> x :: m1 = m2 ++ [y] ->
  exists a0 a' b' b0, a = a0 ++ a' /\ b = b' ++ b0 /\
    strip (a ++ (x :: m1) ++ b) = a' ++ (x :: m1) ++ b'.
Proof. apply strip_by_core. Qed.

Lemma strip_segment (s : text) : segment (strip s) s.
Proof. apply strip_by_segment. Qed.

Lemma int_space_isspace (c : char) : int_space c = true -> isspace c = true.
Proof.
  unfold int_space. intros Hs.
  apply orb_true_iff in Hs as [Hs|Hs]; [apply orb_true_iff in Hs as [Hs|Hs]|].
  - apply andb_true_iff in Hs as [H1 H2]. unfold isspace. by rewrite H1, H2.
  - apply N.eqb_eq in Hs. by subst c.
  - by apply andb_true_iff in Hs as [_ Hs].
Qed.

Lemma segment_trans (u v w : text) : segment u v -> segment v w -> segment u w.
Proof.
  intros (a & b & ->) (a' & b' & ->). exists (a' ++ a), (b ++ b').
  by rewrite <-!app_assoc.
Qed.

Section TextFacts.
Context `{PyRuntime}.

Lemma isdecimal_nospace (c : char) : isdecimal c = true -> isspace c = false.
Proof.
  unfold isdecimal. destruct (uni_decimal c) eqn:E; [|done].
  intros _. by eapply uni_decimal_nospace.
Qed.

(** A line with a decimal digit is not blank. *)
Lemma blank_digit (a b : text) (x : char) :
  isdecimal x = true -> blank (a ++ x :: b) = false.
Proof.
  intros Hx%isdecimal_nospace. unfold blank.
  destruct (strip_core a b [] [] x x Hx Hx eq_refl) as (a0 & a' & b' & b0 & _ & _ & Hs).
  simpl in Hs. rewrite Hs.
  destruct a; simpl; [|by destruct a'].
  by destruct a'.
Qed.

Lemma int_strip_digits (u : text) :
  forallb isdecimal u = true -> strip_by int_space u = u.
Proof.
  intros Hu. apply strip_by_id. intros c Hc.
  destruct (int_space c) eqn:Hs; [|done].
  apply int_space_isspace in Hs.
  rewrite forallb_forall in Hu. rewrite isdecimal_nospace in Hs; [done|].
  apply Hu. by apply list_elem_of_In.
Qed.

End TextFacts.

(** ** What the groups of a match hold *)

Section GroupFacts.
Context `{PyRuntime}.
Variable icase : bool.
Import Re.

Lemma middle_inv_tail (u t a b : text) (x : char) :
  u ++ t = a ++ x :: b ++ t -> u = a ++ x :: b.
Proof.
  intros Heq. apply (app_inv_tail t). by rewrite <-app_assoc.
Qed.

Lemma den_keeps n r s c s' c' :
  has_group n r = false -> den icase r s c s' c' -> group c' n = group c n.
Proof.
  revert s c s' c'.
  induction r as [|a|l|r1 IH1 r2 IH2|r1 IH1 r2 IH2|g a|m r IH];
    intros s c s' c' Hg; simpl in *.
  - by intros [_ ->].
  - by intros (y & _ & _ & ->).
  - by intros [_ ->].
  - apply orb_false_iff in Hg as [Hg1 Hg2].
    intros (s1 & c1 & H1 & H2).
    rewrite (IH2 _ _ _ _ Hg2 H2). exact (IH1 _ _ _ _ Hg1 H1).
  - apply orb_false_iff in Hg as [Hg1 Hg2]. intros [H1|H2]; eauto.
  - by intros (u & _ & _ & ->).
  - apply orb_false_iff in Hg as [Hm Hg].
    intros (c1 & Hd & ->). simpl. rewrite Hm. eauto.
Qed.

Lemma den_needs_digit r s c s' c' :
  needs_digit r = true -> den icase r s c s' c' ->
  exists a x b, s = a ++ x :: b ++ s' /\ isdecimal x = true.
Proof.
  revert s c s' c'.
  induction r as [|a|l|r1 IH1 r2 IH2|r1 IH1 r2 IH2|g a|m r IH];
    intros s c s' c' Hn; simpl in *; try done.
  - destruct a; try done. intros (y & -> & Hy & _). by exists [], y, [].
  - intros (s1 & c1 & H1 & H2). apply orb_true_iff in Hn as [Hn|Hn].
    + destruct (IH1 _ _ _ _ Hn H1) as (a & x & b & -> & Hx).
      destruct (den_consumes _ _ _ _ _ _ H2) as [u2 ->].
      exists a, x, (b ++ u2). by rewrite <-app_assoc.
    + destruct (IH2 _ _ _ _ Hn H2) as (a & x & b & -> & Hx).
      destruct (den_consumes _ _ _ _ _ _ H1) as [u1 ->].
      exists (u1 ++ a), x, b. by rewrite <-app_assoc.
  - apply andb_true_iff in Hn as [Hn1 Hn2]. intros [H1|H2]; eauto.
  - intros (c1 & Hd & _). eauto.
Qed.

Lemma den_only_digits r s c s' c' u :
  only_digits r = true -> den icase r s c s' c' -> s = u ++ s' ->
  forallb isdecimal u = true.
Proof.
  revert s c s' c' u.
  induction r as [|a|l|r1 IH1 r2 IH2|r1 IH1 r2 IH2|g a|m r IH];
    intros s c s' c' u Ho; simpl in *.
  - intros [-> _] Hu. apply (app_inv_tail s [] u) in Hu. by subst.
  - destruct a; try done. intros (y & -> & Hy & _) Hu.
    apply (app_inv_tail s' [y] u) in Hu. subst. simpl in *. by rewrite Hy.
  - destruct l; [|done]. simpl. intros [[= ->] _] Hu.
    apply (app_inv_tail s' [] u) in Hu. by subst.
  - apply andb_true_iff in Ho as [Ho1 Ho2].
    intros (s1 & c1 & H1 & H2) ->.
    destruct (den_consumes _ _ _ _ _ _ H2) as [u2 ->].
    destruct (den_consumes _ _ _ _ _ _ H1) as [u1 Hu1].
    rewrite app_assoc in Hu1. apply app_inv_tail in Hu1. subst u.
    rewrite forallb_app, (IH1 _ _ _ _ u1 Ho1 H1), (IH2 _ _ _ _ u2 Ho2 H2); [done..|].
    by rewrite <-app_assoc.
  - apply andb_true_iff in Ho as [Ho1 Ho2]. intros [H1|H2]; eauto.
  - destruct a; try (by destruct g). intros (v & -> & Hv & _) Hu.
    apply app_inv_tail in Hu. by subst.
  - intros (c1 & Hd & _). eauto.
Qed.

(** The reading of [group_from]. *)
Lemma den_group chk n r s c s' c' :
  group_from chk n r = true -> den icase r s c s' c' ->
  exists r0 u t c0 c1 a b,
    group c' n = Some u /\ chk r0 = true /\
    den icase r0 (u ++ t) c0 t c1 /\ s = a ++ u ++ b ++ s'.
Proof.
  revert s c s' c'.
  induction r as [|a|l|r1 IH1 r2 IH2|r1 IH1 r2 IH2|g a|m r IH];
    intros s c s' c' Hg; simpl in *; try done.
  - intros (s1 & c1 & H1 & H2). apply orb_true_iff in Hg as [Hg|Hg].
    + destruct (IH2 _ _ _ _ Hg H2) as (r0 & u & t & c0 & c2 & a & b & Hu & Hc & Hd & ->).
      destruct (den_consumes _ _ _ _ _ _ H1) as [u1 ->].
      exists r0, u, t, c0, c2, (u1 ++ a), b. by rewrite <-app_assoc.
    + apply andb_true_iff in Hg as [Hg Hk]. apply negb_true_iff in Hk.
      destruct (IH1 _ _ _ _ Hg H1) as (r0 & u & t & c0 & c2 & a & b & Hu & Hc & Hd & ->).
      destruct (den_consumes _ _ _ _ _ _ H2) as [u2 ->].
      exists r0, u, t, c0, c2, a, (b ++ u2).
      rewrite (den_keeps _ _ _ _ _ _ Hk H2), <-app_assoc. done.
  - apply andb_true_iff in Hg as [Hg1 Hg2]. intros [H1|H2]; eauto.
  - intros (c1 & Hd & ->). simpl. destruct (Nat.eqb m n) eqn:Hm.
    + destruct (den_consumes _ _ _ _ _ _ Hd) as [u ->].
      rewrite take_consumed. by exists r, u, s', c, c1, [], [].
    + eauto.
Qed.

(** A group that is written as a number holds decimal digits, one at
    least, and they stand in the text that was matched. *)
Lemma den_group_number n r s c s' c' :
  group_from is_number n r = true -> den icase r s c s' c' ->
  exists u, group c' n = Some u /\ u <> [] /\ forallb isdecimal u = true /\
    segment u s.
Proof.
  intros Hg Hd.
  destruct (den_group _ _ _ _ _ _ _ Hg Hd)
    as (r0 & u & t & c0 & c1 & a & b & Hu & Hc & Hd0 & ->).
  apply andb_true_iff in Hc as [Ho Hn].
  exists u. split; [done|]. split; [|split].
  - destruct (den_needs_digit _ _ _ _ _ Hn Hd0) as (a1 & x & b1 & Heq & _).
    apply middle_inv_tail in Heq. intros ->. by destruct a1.
  - exact (den_only_digits _ _ _ _ _ _ Ho Hd0 eq_refl).
  - by exists a, (b ++ s').
Qed.

Lemma den_group_nonempty n r s c s' c' :
  group_from needs_digit n r = true -> den icase r s c s' c' ->
  exists u, group c' n = Some u /\ u <> [] /\ segment u s.
Proof.
  intros Hg Hd.
  destruct (den_group _ _ _ _ _ _ _ Hg Hd)
    as (r0 & u & t & c0 & c1 & a & b & Hu & Hn & Hd0 & ->).
  exists u. split; [done|]. split.
  - destruct (den_needs_digit _ _ _ _ _ Hn Hd0) as (a1 & x & b1 & Heq & _).
    apply middle_inv_tail in Heq. intros ->. by destruct a1.
  - by exists a, (b ++ s').
Qed.

End GroupFacts.

Section SearchFacts.
Context `{PyRuntime}.
Import Re.

Lemma segment_app_l (pre u s : text) : segment u s -> segment u (pre ++ s).
Proof. intros (a & b & ->). exists (pre ++ a), b. by rewrite <-app_assoc. Qed.

Lemma search_group_number (p : Pat.pattern) (n : nat) (line : text) (m : caps) :
  group_from is_number n (Pat.re p) = true ->
  Pat.search p line = Some m ->
  exists u, group m n = Some u /\ u <> [] /\ forallb isdecimal u = true /\
    segment u line.
Proof.
  intros Hg Hs. destruct (search_sound _ _ _ _ Hs) as (pre & s1 & s' & -> & Hd).
  destruct (den_group_number _ _ _ _ _ _ _ Hg Hd) as (u & Hu & Hne & Hdig & Hseg).
  exists u. repeat split; try done. by apply segment_app_l.
Qed.

Lemma search_group_nonempty (p : Pat.pattern) (n : nat) (line : text) (m : caps) :
  group_from needs_digit n (Pat.re p) = true ->
  Pat.search p line = Some m ->
  exists u, group m n = Some u /\ u <> [] /\ segment u line.
Proof.
  intros Hg Hs. destruct (search_sound _ _ _ _ Hs) as (pre & s1 & s' & -> & Hd).
  destruct (den_group_nonempty _ _ _ _ _ _ _ Hg Hd) as (u & Hu & Hne & Hseg).
  exists u. repeat split; try done. by apply segment_app_l.
Qed.

(** A line that matches a pattern with a number in it is not blank. *)
Lemma search_not_blank (p : Pat.pattern) (line : text) (m : caps) :
  needs_digit (Pat.re p) = true ->
  Pat.search p line = Some m -> blank line = false.
Proof.
  intros Hn Hs. destruct (search_sound _ _ _ _ Hs) as (pre & s1 & s' & -> & Hd).
  destruct (den_needs_digit _ _ _ _ _ _ Hn Hd) as (a & x & b & -> & Hx).
  rewrite app_assoc. by apply blank_digit.
Qed.

End SearchFacts.

(** ** [int] on the numbers of a line *)

Section IntFacts.
Context `{PyRuntime}.

Lemma int_body_digits (u : text) (b : bool) :
  forallb isdecimal u = true -> u <> [] \/ b = true ->
  int_body b u = Some (omap uni_decimal u).
Proof.
  revert b. induction u as [|x u IH]; intros b Hu Hb; simpl.
  - destruct Hb as [Hb| ->]; done.
  - simpl in Hu. apply andb_true_iff in Hu as [Hx Hu]. unfold isdecimal in Hx.
    destruct (uni_decimal x) as [d|]; [|done].
    rewrite (IH true Hu); [done|by right].
Qed.

Lemma length_omap_digits (u : text) :
  forallb isdecimal u = true -> length (omap uni_decimal u) = length u.
Proof.
  induction u as [|x u IH]; simpl; [done|].
  intros [Hx Hu]%andb_true_iff. unfold isdecimal in Hx.
  destruct (uni_decimal x); [|done]. simpl. f_equal. exact (IH Hu).
Qed.

(** On a string of decimal digits [int] gives its value, unless the
    string is longer than the limit allows. *)
Lemma py_int_number (u : text) :
  u <> [] -> forallb isdecimal u = true ->
  py_int u = if too_many_digits (length u) then Raise ValueError
             else Ok (number_value u).
Proof.
  intros Hne Hu. unfold py_int. rewrite (int_strip_digits _ Hu).
  destruct u as [|x u]; [done|].
  assert (Hx : isdecimal x = true).
  { simpl in Hu. by apply andb_true_iff in Hu as [Hx _]. }
  assert (Hsign : (x =? 45) = false /\ (x =? 43) = false).
  { unfold isdecimal in Hx. split; apply N.eqb_neq; intros ->;
      rewrite uni_decimal_ascii in Hx by lia; done. }
  destruct Hsign as [-> ->].
  rewrite (int_body_digits _ false Hu) by (by left).
  by rewrite (length_omap_digits _ Hu).
Qed.

Lemma digit_run_ge (cur best : nat) (s : text) :
  (Nat.max cur best <= digit_run cur best s)%nat.
Proof.
  revert cur best. induction s as [|x s IH]; intros cur best; simpl; [done|].
  destruct (isdecimal x).
  - specialize (IH (S cur) best). lia.
  - specialize (IH O (Nat.max cur best)). lia.
Qed.

Lemma digit_run_prefix (cur best : nat) (u b : text) :
  forallb isdecimal u = true ->
  (cur + length u <= digit_run cur best (u ++ b))%nat.
Proof.
  revert cur. induction u as [|x u IH]; intros cur Hu; simpl.
  - pose proof (digit_run_ge cur best b). lia.
  - simpl in Hu. apply andb_true_iff in Hu as [-> Hu].
    specialize (IH (S cur) Hu). lia.
Qed.

Lemma digit_run_segment (cur best : nat) (u s : text) :
  segment u s -> forallb isdecimal u = true ->
  (length u <= digit_run cur best s)%nat.
Proof.
  intros (a & b & ->) Hu. revert cur best.
  induction a as [|x a IH]; intros cur best; simpl.
  - pose proof (digit_run_prefix cur best u b Hu). lia.
  - destruct (isdecimal x); apply IH.
Qed.

Lemma too_many_digits_mono (n m : nat) :
  (n <= m)%nat -> too_many_digits m = false -> too_many_digits n = false.
Proof.
  unfold too_many_digits. intros Hnm.
  destruct (Nat.ltb_spec 640 m), (Nat.ltb_spec 0 int_max_str_digits),
    (Nat.ltb_spec int_max_str_digits m); simpl; try done; intros _;
  destruct (Nat.ltb_spec 640 n), (Nat.ltb_spec int_max_str_digits n);
    simpl; try done; lia.
Qed.

(** Without a limit every line fits. *)
Lemma fits_no_limit (line : text) : int_max_str_digits = O -> fits line = true.
Proof.
  intros Hl. unfold fits, too_many_digits. rewrite Hl. simpl.
  by rewrite andb_false_r.
Qed.

End IntFacts.

(** ** The loop of [digitize] as a scan over lines *)

Section ScanFacts.
Context `{PyRuntime}.
Import Pat.

(** [classify] followed by [apply_action] is the loop body. *)
Lemma digitize_line_classify (st : scan_state) (line : text) :
  digitize_line st line =
  (a ← classify (current_element st) line; Ok (apply_action st a)).
Proof.
  unfold digitize_line, classify, mbind, result_bind.
  repeat (case_match; simplify_eq/=; try done).
  all: unfold apply_action, action_event, record_event; simpl.
  all: repeat (case_match; simplify_eq/=; try done).
  all: by f_equal; f_equal.
Qed.

Lemma rows_apply_action (st : scan_state) (a : action) :
  rows (apply_action st a) =
  match action_event st a with
  | Some ev => record_event (rows st) ev
  | None => rows st
  end.
Proof.
  destruct a; simpl; try done.
  unfold action_event. by destruct (current_element st).
Qed.

(** The table after a run is the events of the run recorded in order, and
    the run raises exactly when the classifier does. *)
Lemma digitize_lines_events (st : scan_state) (lines : list text) :
  match digitize_lines st lines, line_events st lines with
  | Ok st', Ok evs => rows st' = foldl record_event (rows st) evs
  | Raise e, Raise e' => e = e'
  | _, _ => False
  end.
Proof.
  revert st. induction lines as [|l ls IH]; intros st; simpl; [done|].
  rewrite digitize_line_classify.
  destruct (classify (current_element st) l) as [a|e]; simpl; [|done].
  specialize (IH (apply_action st a)).
  destruct (digitize_lines (apply_action st a) ls),
    (line_events (apply_action st a) ls); simpl; try done.
  rewrite IH, rows_apply_action. by destruct (action_event st a).
Qed.

Lemma digitize_lines_app (st : scan_state) (l1 l2 : list text) :
  digitize_lines st (l1 ++ l2) =
  (st1 ← digitize_lines st l1; digitize_lines st1 l2).
Proof.
  revert st. induction l1 as [|l l1 IH]; intros st; simpl; [done|].
  destruct (digitize_line st l) as [st1|e]; simpl; [apply IH|done].
Qed.

Lemma digitize_page_lines (st : scan_state) (idx : nat) (p : page) :
  idx <> O -> digitize_page st idx p = digitize_lines st (page_lines p).
Proof.
  intros Hi. unfold digitize_page, page_lines.
  destruct idx; [done|]. simpl. by destruct p as [[|c t]|].
Qed.

Lemma digitize_pages_lines (st : scan_state) (idx : nat) (pages : list page) :
  idx <> O ->
  digitize_pages st idx pages = digitize_lines st (concat (page_lines <$> pages)).
Proof.
  revert st idx. induction pages as [|p ps IH]; intros st idx Hi; simpl; [done|].
  rewrite digitize_page_lines, digitize_lines_app by done.
  destruct (digitize_lines st (page_lines p)) as [st1|e]; simpl; [|done].
  by apply IH.
Qed.

(** [digitize] is one scan over the lines of the pages after page 0. *)
Lemma digitize_scan (pages : list page) (oc : gmap text Z) :
  digitize pages oc =
  (st ← digitize_lines scan_init (document_lines pages);
   Ok (result_row oc <$> rows st)).
Proof.
  unfold digitize, document_lines. destruct pages as [|p ps]; simpl; [done|].
  by rewrite digitize_pages_lines.
Qed.

End ScanFacts.

(** ** The aggregation table *)

Lemma note_key_elem (ks : list key) (k k' : key) :
  k' ∈ note_key ks k <-> k' ∈ ks \/ k' = k.
Proof.
  unfold note_key. destruct (decide (k ∈ ks)).
  - split; [by left|]. by intros [?| ->].
  - rewrite elem_of_app, list_elem_of_singleton. done.
Qed.

Lemma rows_update_keys (f : counts -> counts) (k : key) (rs : list (key * counts)) :
  (rows_update f k rs).*1 = note_key rs.*1 k.
Proof.
  induction rs as [|[k1 c] rs IH]; csimpl.
  - unfold note_key. rewrite decide_False; [done|apply not_elem_of_nil].
  - unfold note_key in *. destruct (decide (k1 = k)) as [->|Hne]; csimpl.
    + rewrite decide_True; [done|]. apply elem_of_cons. by left.
    + rewrite IH. destruct (decide (k ∈ rs.*1)) as [Hin|Hn].
      * rewrite decide_True; [done|]. apply elem_of_cons. by right.
      * rewrite decide_False; [done|]. by intros [->|?]%elem_of_cons.
Qed.

Lemma rows_get_update (f : counts -> counts) (k k0 : key) (rs : list (key * counts)) :
  rows_get k (rows_update f k0 rs) =
  if decide (k = k0) then Some (f (default counts_default (rows_get k0 rs)))
  else rows_get k rs.
Proof.
  induction rs as [|[k1 c] rs IH]; simpl.
  - destruct (decide (k0 = k)), (decide (k = k0)); simplify_eq; done.
  - destruct (decide (k1 = k0)) as [->|Hne]; simpl.
    + destruct (decide (k0 = k)), (decide (k = k0)); simplify_eq; done.
    + rewrite IH. destruct (decide (k1 = k)), (decide (k = k0)); simplify_eq; done.
Qed.

Lemma rows_get_elem (k : key) (c : counts) (rs : list (key * counts)) :
  NoDup rs.*1 -> (k, c) ∈ rs -> rows_get k rs = Some c.
Proof.
  induction rs as [|[k1 c1] rs IH]; simpl; [by intros _ ?%elem_of_nil|].
  intros [Hk1 Hnd]%NoDup_cons [[= -> ->]|Hin]%elem_of_cons.
  - by rewrite decide_True.
  - destruct (decide (k1 = k)) as [->|Hne]; [|by apply IH].
    exfalso. apply Hk1. apply list_elem_of_fmap. by exists (k, c).
Qed.

Lemma record_event_keys (rs : list (key * counts)) (ev : event) :
  (record_event rs ev).*1 = note_key rs.*1 (ev_key ev).
Proof.
  unfold record_event. destruct (ev_embedded ev); rewrite !rows_update_keys; [|done].
  unfold note_key at 1. rewrite decide_True; [done|].
  apply note_key_elem. by right.
Qed.

Lemma record_event_get (k : key) (rs : list (key * counts)) (ev : event) :
  rows_get k (record_event rs ev) =
  if decide (k = ev_key ev)
  then Some (count_event ev (default counts_default (rows_get k rs)))
  else rows_get k rs.
Proof.
  unfold record_event, count_event.
  destruct (ev_embedded ev); rewrite !rows_get_update;
    destruct (decide (k = ev_key ev)) as [->|]; try done.
  by rewrite decide_True.
Qed.

Lemma foldl_record_keys (rs : list (key * counts)) (evs : list event) :
  (foldl record_event rs evs).*1 = foldl note_key rs.*1 (ev_key <$> evs).
Proof.
  revert rs. induction evs as [|ev evs IH]; intros rs; simpl; [done|].
  by rewrite IH, record_event_keys.
Qed.

Lemma foldl_note_key_NoDup (ks l : list key) :
  NoDup ks -> NoDup (foldl note_key ks l).
Proof.
  revert ks. induction l as [|k l IH]; intros ks Hnd; simpl; [done|].
  apply IH. unfold note_key. destruct (decide (k ∈ ks)); [done|].
  apply NoDup_app. split; [done|]. split; [|apply NoDup_singleton].
  by intros x Hx ->%list_elem_of_singleton.
Qed.

Lemma filter_all (P : key -> Prop) `{!forall k, Decision (P k)} (l : list key) :
  (forall k, P k) -> filter P l = l.
Proof.
  intros HP. induction l as [|k l IH]; [done|].
  by rewrite filter_cons_True, IH.
Qed.

(** Looking the keys up one after the other leaves them in the order of
    their first occurrence. *)
Lemma foldl_note_key_first (acc ks : list key) :
  foldl note_key acc ks = acc ++ filter (fun k => k ∉ acc) (first_occurrences ks).
Proof.
  revert acc. induction ks as [|k ks IH]; intros acc.
  - simpl. by rewrite app_nil_r.
  - cbn [foldl first_occurrences]. rewrite IH. unfold note_key.
    destruct (decide (k ∈ acc)) as [Hin|Hn].
    + rewrite filter_cons_False by tauto. f_equal.
      rewrite list_filter_filter. apply list_filter_iff.
      intros x. split; [|tauto]. intros Hx. split; [done|]. by intros ->.
    + rewrite filter_cons_True by done. rewrite <-app_assoc. simpl. do 2 f_equal.
      rewrite list_filter_filter. apply list_filter_iff.
      intros x. rewrite not_elem_of_app, list_elem_of_singleton. tauto.
Qed.

Lemma first_occurrences_foldl (ks : list key) :
  foldl note_key [] ks = first_occurrences ks.
Proof.
  rewrite foldl_note_key_first. simpl. apply filter_all.
  intros k. apply not_elem_of_nil.
Qed.

Lemma first_occurrences_NoDup (ks : list key) : NoDup (first_occurrences ks).
Proof. rewrite <-first_occurrences_foldl. apply foldl_note_key_NoDup, NoDup_nil_2. Qed.

(** ** The table as sums over the events *)

Lemma sum_qty_snoc (emb : bool) (k : key) (evs : list event) (ev : event) :
  sum_qty emb k (evs ++ [ev]) =
  if bool_decide (ev_embedded ev = emb) && bool_decide (ev_key ev = k)
  then (sum_qty emb k evs + ev_qty ev)%Z else sum_qty emb k evs.
Proof. unfold sum_qty. by rewrite foldl_snoc. Qed.

Lemma last_zd_count_snoc (k : key) (evs : list event) (ev : event) :
  last_zd_count k (evs ++ [ev]) =
  if ev_embedded ev && bool_decide (ev_key ev = k)
  then ev_zd_count ev else last_zd_count k evs.
Proof. unfold last_zd_count. by rewrite foldl_snoc. Qed.

Lemma totals_snoc (k : key) (evs : list event) (ev : event) :
  totals k (evs ++ [ev]) =
  if decide (k = ev_key ev) then count_event ev (totals k evs) else totals k evs.
Proof.
  unfold totals, count_event. rewrite !sum_qty_snoc, last_zd_count_snoc.
  destruct (decide (k = ev_key ev)) as [->|Hne].
  - rewrite !(bool_decide_eq_true_2 (ev_key ev = ev_key ev)) by done.
    by destruct (ev_embedded ev).
  - rewrite !(bool_decide_eq_false_2 (ev_key ev = k)) by done.
    by rewrite !andb_false_r.
Qed.

Lemma totals_notin (k : key) (evs : list event) :
  k ∉ ev_key <$> evs -> totals k evs = counts_default.
Proof.
  induction evs as [|ev evs IH] using rev_ind; [done|].
  rewrite fmap_app, not_elem_of_app. csimpl. intros [Hk Hne].
  rewrite totals_snoc, decide_False; [by apply IH|].
  intros ->. apply Hne. apply list_elem_of_singleton. done.
Qed.

(** Each entry of the table holds the totals of the events of its key. *)
Lemma rows_get_foldl (k : key) (evs : list event) :
  rows_get k (foldl record_event [] evs) =
  if decide (k ∈ ev_key <$> evs) then Some (totals k evs) else None.
Proof.
  induction evs as [|ev evs IH] using rev_ind.
  - done.
  - rewrite foldl_snoc, record_event_get, IH, totals_snoc, fmap_app. csimpl.
    destruct (decide (k = ev_key ev)) as [->|Hne].
    + rewrite (decide_True (P := ev_key ev ∈ _ ++ _)).
      2:{ apply elem_of_app. right. by apply list_elem_of_singleton. }
      destruct (decide (ev_key ev ∈ ev_key <$> evs)) as [Hin|Hn]; simpl; [done|].
      by rewrite (totals_notin _ _ Hn).
    + destruct (decide (k ∈ ev_key <$> evs)) as [Hin|Hn].
      * rewrite decide_True; [done|]. apply elem_of_app. by left.
      * rewrite decide_False; [done|].
        intros [?|?%list_elem_of_singleton]%elem_of_app; done.
Qed.

(** ** The result rows *)

Section RowFacts.
Context `{PyRuntime}.

Lemma row_key_result_row (oc : gmap text Z) (kc : key * counts) :
  row_key (result_row oc kc) = kc.1.
Proof. by destruct kc as [[[[e n] d] l] c]. Qed.

(** The rows of the result are the keys of the rod events in the order of
    their first occurrence, each with the totals of its events. *)
Lemma digitize_rows (pages : list page) (oc : gmap text Z) (out : list out_row) :
  digitize pages oc = Ok out ->
  exists evs, document_events pages = Ok evs /\
    row_key <$> out = first_occurrences (ev_key <$> evs) /\
    forall r, r ∈ out ->
      row_direct r = sum_qty false (row_key r) evs /\
      row_in_zd r = sum_qty true (row_key r) evs /\
      row_zd_count r = last_zd_count (row_key r) evs.
Proof.
  rewrite digitize_scan. unfold document_events.
  pose proof (digitize_lines_events scan_init (document_lines pages)) as He.
  destruct (digitize_lines scan_init (document_lines pages)) as [st|e]; [|done].
  destruct (line_events scan_init (document_lines pages)) as [evs|e]; [|done].
  simpl in He. intros [= <-]. exists evs. split; [done|].
  assert (Hkeys : (rows st).*1 = first_occurrences (ev_key <$> evs)).
  { by rewrite He, foldl_record_keys, first_occurrences_foldl. }
  split.
  - rewrite <-Hkeys, <-list_fmap_compose. apply list_fmap_ext.
    intros _ kc _. apply row_key_result_row.
  - intros r [[k c] [-> Hin]]%list_elem_of_fmap.
    rewrite row_key_result_row. simpl.
    assert (Hget : rows_get k (rows st) = Some c).
    { apply rows_get_elem; [|done]. rewrite Hkeys.
      apply first_occurrences_NoDup. }
    rewrite He, rows_get_foldl in Hget.
    destruct (decide (k ∈ ev_key <$> evs)); [|done].
    injection Hget as <-. by destruct k as [[[e1 n1] d1] l1].
Qed.

End RowFacts.

(** C1: every output row has totalQuantity = directRodCount * objectMultiplier
    + rodsPerEmbedded * embeddedInstanceCount * objectMultiplier, where the
    multiplier is the entry of the row's element code in the object count
    map, and 1 when the code is not in the map. *)
Theorem total_quantity_formula `{PyRuntime} (pages : list page)
    (object_counts : gmap text Z) (out : list out_row) (r : out_row) :
  digitize pages object_counts = Ok out -> r ∈ out ->
  row_objects r =
    match object_counts !! row_element r with Some n => n | None => 1%Z end /\
  row_total r =
    (row_direct r * row_objects r + row_in_zd r * row_zd_count r * row_objects r)%Z.
Proof.
  unfold digitize.
  destruct (digitize_pages scan_init 0 pages) as [st|err]; [|done].
  simpl. intros [= <-] [[[[[e n] d] l] c] [-> _]]%list_elem_of_fmap.
  simpl. unfold object_multiplier. by destruct (object_counts !! e).
Qed.

Lemma total_quantity_formula_witness :
  @digitize basic_rt doc_column counts_column = Ok out_column /\
  forall r, r ∈ out_column ->
    row_objects r = 3%Z /\
    row_total r =
      (row_direct r * row_objects r + row_in_zd r * row_zd_count r * row_objects r)%Z.
Proof.
  assert (Hrun : @digitize basic_rt doc_column counts_column = Ok out_column)
    by (vm_compute; reflexivity).
  split; [exact Hrun|]. intros r Hr.
  destruct (@total_quantity_formula basic_rt _ _ _ r Hrun Hr) as [Hm Ht].
  split; [|exact Ht].
  rewrite Hm. unfold out_column in Hr.
  repeat (apply elem_of_cons in Hr as [->|Hr]; [vm_compute; reflexivity|]).
  by apply elem_of_nil in Hr.
Defined.

(** C2: the output rows are in the order in which their keys (element, rod
    name, diameter, length) first occur among the rod events of the scan
    over the pages and lines; nothing else reorders them. *)
Theorem rows_in_first_occurrence_order `{PyRuntime} (pages : list page)
    (object_counts : gmap text Z) (out : list out_row) :
  digitize pages object_counts = Ok out ->
  exists evs, document_events pages = Ok evs /\
    row_key <$> out = first_occurrences (ev_key <$> evs).
Proof.
  intros Hrun. destruct (digitize_rows _ _ _ Hrun) as (evs & Hev & Hkeys & _).
  by exists evs.
Qed.

Lemma rows_in_first_occurrence_order_witness :
  @digitize basic_rt doc_column counts_column = Ok out_column /\
  exists evs, @document_events basic_rt doc_column = Ok evs /\
    row_key <$> out_column = first_occurrences (ev_key <$> evs).
Proof.
  assert (Hrun : @digitize basic_rt doc_column counts_column = Ok out_column)
    by (vm_compute; reflexivity).
  split; [exact Hrun|].
  exact (@rows_in_first_occurrence_order basic_rt _ _ _ Hrun).
Defined.

(** ** The classifier state *)

Section StateFacts.
Context `{PyRuntime}.
Import Pat.

Lemma is_header_false (line : text) :
  is_header line = false ->
  search SPEC_ELEMENTS_RE line = None /\ search SPEC_HEADER_RE line = None.
Proof.
  unfold is_header.
  by destruct (search SPEC_ELEMENTS_RE line), (search SPEC_HEADER_RE line).
Qed.

(** Without a current element, a line that is no header is skipped. *)
Lemma classify_unset (cur : option text) (line : text) :
  cur = None \/ cur = Some [] -> is_header line = false ->
  classify cur line = Ok Skip.
Proof.
  intros Hcur [H1 H2]%is_header_false. unfold classify. rewrite H1, H2.
  destruct (blank line); [done|]. by destruct Hcur as [-> | ->].
Qed.

(** A line that is no header leaves the current element as it is, never
    clears the embedded flag, and changes the embedded instance count only
    when it is a quantity line. *)
Lemma non_header_keeps_state (st st' : scan_state) (line : text) :
  is_header line = false -> digitize_line st line = Ok st' ->
  current_element st' = current_element st /\
  (in_embedded st = true -> in_embedded st' = true) /\
  (embedded_qty st' = embedded_qty st \/ is_Some (search EMBEDDED_LINE_RE line)).
Proof.
  intros [H1 H2]%is_header_false. unfold digitize_line. rewrite H1, H2.
  unfold mbind, result_bind.
  repeat (case_match; simplify_eq/=; try done);
    intros; simplify_eq/=; repeat split; eauto.
Qed.

(** Lines without a header, read while no element is current, change
    nothing. *)
Lemma unset_lines_ignored (st : scan_state) (lines rest : list text) :
  current_element st = None ->
  Forall (fun line => is_header line = false) lines ->
  Forall (fun line => digitize_line st line = Ok st) lines /\
  digitize_lines st (lines ++ rest) = digitize_lines st rest /\
  line_events st (lines ++ rest) = line_events st rest.
Proof.
  intros Hcur Hl. induction Hl as [|line lines Hline Hl IH]; [done|].
  destruct IH as (IH1 & IH2 & IH3).
  assert (Hc : classify (current_element st) line = Ok Skip).
  { apply classify_unset; [by left|done]. }
  assert (Hd : digitize_line st line = Ok st).
  { by rewrite digitize_line_classify, Hc. }
  split; [by constructor|]. simpl. rewrite Hd, Hc. simpl. split; [done|].
  rewrite IH3. by destruct (line_events st rest).
Qed.

End StateFacts.

(** C8: the classifier state lives across page boundaries.  A run over
    pages is the run over the lines of all the pages put one after the
    other, a page without text leaves the state as it is, and only a line
    that matches the section marker or the element header sets the current
    element or clears the embedded flag. *)
Theorem state_persists_across_pages `{PyRuntime} (st : scan_state) :
  (forall idx pages, idx <> O ->
     digitize_pages st idx pages = digitize_lines st (concat (page_lines <$> pages))) /\
  (forall p pages,
     digitize_pages st 0 (p :: pages) = digitize_lines st (concat (page_lines <$> pages))) /\
  (forall idx, digitize_page st idx None = Ok st /\ digitize_page st idx (Some []) = Ok st) /\
  (forall line st', is_header line = false -> digitize_line st line = Ok st' ->
     current_element st' = current_element st /\
     (in_embedded st = true -> in_embedded st' = true) /\
     (embedded_qty st' = embedded_qty st \/
      is_Some (Pat.search Pat.EMBEDDED_LINE_RE line))).
Proof.
  split; [|split; [|split]].
  - intros idx pages Hi. by apply digitize_pages_lines.
  - intros p pages. simpl. by apply digitize_pages_lines.
  - intros idx. unfold digitize_page. by destruct (Nat.eqb idx 0).
  - intros line st'. apply non_header_keeps_state.
Qed.

(** C9: while no current element is set, every line that matches neither
    the section marker nor the element header is ignored: the state stays
    as it is and no rod event is emitted, whatever the line looks like.  The
    scan of a document starts without a current element, so the lines before
    its first header can be left out. *)
Theorem lines_before_first_header_ignored `{PyRuntime} (st : scan_state)
    (lines rest : list text) :
  current_element st = None ->
  Forall (fun line => is_header line = false) lines ->
  Forall (fun line => digitize_line st line = Ok st) lines /\
  digitize_lines st (lines ++ rest) = digitize_lines st rest /\
  line_events st (lines ++ rest) = line_events st rest /\
  forall pages object_counts,
    document_lines pages = lines ++ rest ->
    digitize pages object_counts =
      (st' ← digitize_lines scan_init rest;
       Ok (result_row object_counts <$> rows st')) /\
    document_events pages = line_events scan_init rest.
Proof.
  intros Hcur Hl.
  destruct (unset_lines_ignored st lines rest Hcur Hl) as (H1 & H2 & H3).
  split; [done|]. split; [done|]. split; [done|].
  intros pages object_counts Hdoc.
  destruct (unset_lines_ignored scan_init lines rest eq_refl Hl) as (_ & I2 & I3).
  split.
  - by rewrite digitize_scan, Hdoc, I2.
  - unfold document_events. by rewrite Hdoc, I3.
Qed.

(** ** The patterns of [main.py], piece by piece *)

Section PatternFacts.
Context `{PyRuntime}.
Variable ic : bool.
Import Re Pat.

Lemma den_seqs_cons r rs s c s' c' :
  den ic (seqs (r :: rs)) s c s' c' <->
  exists s1 c1, den ic r s c s1 c1 /\ den ic (seqs rs) s1 c1 s' c'.
Proof.
  destruct rs as [|r2 rs]; [|done]. simpl. split.
  - intros Hd. by exists s', c'.
  - by intros (s1 & c1 & Hd & -> & ->).
Qed.

Lemma den_seqs_app l1 l2 s c s' c' :
  den ic (seqs (l1 ++ l2)) s c s' c' <->
  exists s1 c1, den ic (seqs l1) s c s1 c1 /\ den ic (seqs l2) s1 c1 s' c'.
Proof.
  revert s c. induction l1 as [|r l1 IH]; intros s c.
  - simpl. split.
    + intros Hd. by exists s, c.
    + by intros (s1 & c1 & [-> ->] & Hd).
  - change ((r :: l1) ++ l2) with (r :: (l1 ++ l2)). rewrite !den_seqs_cons. split.
    + intros (s1 & c1 & Hr & Hd). apply IH in Hd as (s2 & c2 & H1 & H2).
      exists s2, c2. split; [|done]. apply den_seqs_cons. by exists s1, c1.
    + intros (s2 & c2 & Hd & H2). apply den_seqs_cons in Hd as (s1 & c1 & Hr & H1).
      exists s1, c1. split; [done|]. apply IH. by exists s2, c2.
Qed.

Lemma den_digits s c s' c' :
  den ic digits s c s' c' <->
  exists y u, s = y :: u ++ s' /\ isdecimal y = true /\
    forallb isdecimal u = true /\ c' = c.
Proof.
  simpl. split.
  - intros (s1 & c1 & (y & -> & Hy & ->) & (u & -> & Hu & ->)). by exists y, u.
  - intros (y & u & -> & Hy & Hu & ->). exists (u ++ s'), c. split; [by exists y|by exists u].
Qed.

Lemma den_spaces s c s' c' :
  den ic spaces s c s' c' <->
  exists u, s = u ++ s' /\ forallb isspace u = true /\ c' = c.
Proof. done. Qed.

End PatternFacts.

Section LineFacts.
Context `{PyRuntime}.
Import Re Pat.

(** A quantity line of an embedded item has the shape of an embedded-item
    header too. *)
Lemma embedded_line_has_header (line : text) (m : caps) :
  search EMBEDDED_LINE_RE line = Some m ->
  is_Some (search EMBEDDED_HEADER_RE line).
Proof.
  intros Hs. destruct (search_sound _ _ _ _ Hs) as (pre & s1 & s' & -> & Hd).
  unfold EMBEDDED_LINE_RE in Hd. cbn [re icase] in Hd.
  apply den_seqs_app in Hd as (s2 & c2 & Hd & _).
  exact (search_complete _ _ pre _ _ _ Hd).
Qed.

(** A header line is not blank, and the code it announces is not empty. *)
Lemma header_line (cur : option text) (line : text) :
  is_header line = true ->
  exists code, header_code line = Some code /\ code <> [] /\
    classify cur line = Ok (SetElement (Some code)).
Proof.
  unfold is_header, header_code, classify.
  destruct (search SPEC_ELEMENTS_RE line) as [m|] eqn:H1.
  - intros _.
    destruct (search_group_nonempty SPEC_ELEMENTS_RE 1 line m eq_refl H1)
      as (code & Hg & Hne & _).
    rewrite (search_not_blank SPEC_ELEMENTS_RE line m eq_refl H1), Hg.
    by exists code.
  - destruct (search SPEC_HEADER_RE line) as [m|] eqn:H2; [|done]. intros _.
    destruct (search_group_nonempty SPEC_HEADER_RE 2 line m eq_refl H2)
      as (code & Hg & Hne & _).
    rewrite (search_not_blank SPEC_HEADER_RE line m eq_refl H2), Hg.
    by exists code.
Qed.

(** A line that is neither a header nor about an embedded item leaves the
    current element, the embedded flag and the embedded instance count as
    they are. *)
Lemma quiet_line_keeps_context (st st' : scan_state) (line : text) :
  is_header line = false -> search EMBEDDED_HEADER_RE line = None ->
  digitize_line st line = Ok st' ->
  current_element st' = current_element st /\
  embedded_qty st' = embedded_qty st /\ in_embedded st' = in_embedded st.
Proof.
  intros [H1 H2]%is_header_false Heh. unfold digitize_line. rewrite H1, H2, Heh.
  destruct (search EMBEDDED_LINE_RE line) as [m|] eqn:Hel.
  { destruct (embedded_line_has_header line m Hel) as [? Hx]. congruence. }
  unfold mbind, result_bind.
  repeat (case_match; simplify_eq/=; try done); by intros; simplify_eq/=.
Qed.

Lemma quiet_lines_keep_context (st st' : scan_state) (lines : list text) :
  Forall (fun line => is_header line = false /\
                      search EMBEDDED_HEADER_RE line = None) lines ->
  digitize_lines st lines = Ok st' ->
  current_element st' = current_element st /\
  embedded_qty st' = embedded_qty st /\ in_embedded st' = in_embedded st.
Proof.
  intros Hl. revert st.
  induction Hl as [|line lines [Hh Heh] Hl IH]; intros st; simpl.
  - by intros [= <-].
  - destruct (digitize_line st line) as [st1|] eqn:Hd; [|done]. simpl. intros Hr.
    destruct (quiet_line_keeps_context _ _ _ Hh Heh Hd) as (E1 & E2 & E3).
    destruct (IH _ Hr) as (F1 & F2 & F3). repeat split; congruence.
Qed.

End LineFacts.

(** C4: a line that matches the section marker or the element header sets
    the current element to the captured code, the embedded flag to false and
    the embedded instance count to 0; so a rod line after it (directly, or
    after lines that are neither headers nor about an embedded item) is
    recorded as direct, whatever the embedded state was before the header. *)
Theorem header_resets_embedded_state `{PyRuntime} (st : scan_state) (line : text) :
  is_header line = true ->
  exists code, header_code line = Some code /\ code <> [] /\
    digitize_line st line =
      Ok {| current_element := Some code; embedded_qty := 0;
            in_embedded := false; rows := rows st |} /\
    forall mid st2 rod name d l q,
      Forall (fun line => is_header line = false /\
                Pat.search Pat.EMBEDDED_HEADER_RE line = None) mid ->
      digitize_lines st (line :: mid) = Ok st2 ->
      classify (Some code) rod = Ok (Rod name d l q) ->
      digitize_lines st (line :: mid ++ [rod]) =
        Ok {| current_element := Some code; embedded_qty := 0;
              in_embedded := false;
              rows := rows_update (add_direct q) (code, name, d, l) (rows st2) |}.
Proof.
  intros Hh.
  destruct (header_line (current_element st) line Hh) as (code & Hc & Hne & Hcl).
  assert (Hline : digitize_line st line =
      Ok {| current_element := Some code; embedded_qty := 0;
            in_embedded := false; rows := rows st |}).
  { by rewrite digitize_line_classify, Hcl. }
  exists code. repeat split; try done.
  intros mid st2 rod name d l q Hmid Hrun Hrod.
  change (line :: mid ++ [rod]) with ((line :: mid) ++ [rod]).
  rewrite digitize_lines_app, Hrun. simpl in Hrun. rewrite Hline in Hrun.
  destruct (quiet_lines_keep_context _ _ _ Hmid Hrun) as (E1 & E2 & E3).
  simpl in E1, E2, E3. simpl.
  rewrite digitize_line_classify, E1, Hrod. simpl.
  unfold action_event. rewrite E1, E2, E3. simpl.
  unfold record_event. simpl. done.
Qed.

(** ** The rod line and its size *)

(** Equations between lists written with [++] and [::]. *)
Ltac app_norm :=
  repeat first [rewrite <-app_assoc | rewrite <-app_comm_cons | progress simpl];
  try reflexivity.

Section RodFacts.
Context `{PyRuntime}.
Import Re Pat.

(** [SIZE_RE] matches at a diameter, a multiplication sign and a length. *)
Lemma size_token_den (y x z : char) (d1 sp sp' d2 t : text) :
  isdecimal y = true -> forallb isdecimal d1 = true ->
  forallb isspace sp = true ->
  atom_match true (ASet (utf8 "xх")) x = true ->
  forallb isspace sp' = true ->
  isdecimal z = true -> forallb isdecimal d2 = true ->
  exists c, den true (re SIZE_RE) (y :: d1 ++ sp ++ x :: sp' ++ z :: d2 ++ t) [] t c.
Proof.
  intros Hy Hd1 Hsp Hx Hsp' Hz Hd2. unfold SIZE_RE. cbn [re]. eexists.
  apply den_seqs_cons. eexists _, _. split; [by right|].
  apply den_seqs_cons. eexists _, _. split; [by apply den_spaces; exists []|].
  apply den_seqs_cons. eexists _, _. split.
  { cbn [den]. eexists. split; [|reflexivity]. apply den_digits. by exists y, d1. }
  apply den_seqs_cons. eexists _, _. split; [by apply den_spaces; exists sp|].
  apply den_seqs_cons. eexists _, _. split; [by exists x|].
  apply den_seqs_cons. eexists _, _. split; [by apply den_spaces; exists sp'|].
  cbn [seqs den]. eexists. split; [|reflexivity]. apply den_digits. by exists z, d2.
Qed.

(** The name that [LINE_RE] captures holds a size, also after [strip]. *)
Lemma rod_line_name (line : text) (m : caps) :
  search LINE_RE line = Some m ->
  exists name, group m g_fullname = Some name /\ segment name line /\
    is_Some (search SIZE_RE (strip name)).
Proof.
  intros Hs. destruct (search_sound _ _ _ _ Hs) as (pre & s1 & s' & -> & Hd).
  unfold LINE_RE in Hd. cbn [re icase] in Hd.
  apply den_seqs_cons in Hd as (s2 & c2 & Hname & Hrest).
  cbn [den] in Hname. destruct Hname as (c1 & Hname & ->).
  assert (Hg : group m g_fullname = Some (take (length s1 - length s2) s1)).
  { rewrite (den_keeps true g_fullname (seqs [spaces1; Grp g_qty digits])
              _ _ _ _ eq_refl Hrest). simpl. done. }
  apply (den_seqs_app true [_; _; _; _; _; _]) in Hname as (sa & ca & Hpre & Htl).
  apply (den_seqs_app true [_; _; _; _; _]) in Htl as (sb & cb & Htok & Hpost).
  destruct (den_consumes _ _ _ _ _ _ Hpre) as [up ->].
  destruct (den_consumes _ _ _ _ _ _ Hpost) as [uq ->].
  apply den_seqs_cons in Htok as (t1 & k1 & Hd1 & Htok).
  apply den_seqs_cons in Htok as (t2 & k2 & Hsp & Htok).
  apply den_seqs_cons in Htok as (t3 & k3 & Hx & Htok).
  apply den_seqs_cons in Htok as (t4 & k4 & Hsp' & Hd2).
  apply den_digits in Hd1 as (y & d1 & -> & Hy & Hd1 & _).
  apply den_spaces in Hsp as (sp & -> & Hsp & _).
  destruct Hx as (x & -> & Hx & _).
  apply den_spaces in Hsp' as (sp' & -> & Hsp' & _).
  cbn [seqs] in Hd2. apply den_digits in Hd2 as (z & d2 & -> & Hz & Hd2 & _).
  destruct (exists_last (l := z :: d2)) as (d2' & w & Hlast); [done|].
  assert (Hw : isdecimal w = true).
  { assert (Hall : forallb isdecimal (z :: d2) = true) by (simpl; by rewrite Hz).
    rewrite Hlast, forallb_app in Hall. simpl in Hall.
    apply andb_true_iff in Hall as [_ Hall]. by apply andb_true_iff in Hall as [Hall _]. }
  set (m1 := d1 ++ sp ++ x :: sp' ++ z :: d2).
  assert (Hm : y :: m1 = (y :: d1 ++ sp ++ x :: sp' ++ d2') ++ [w]).
  { unfold m1. rewrite Hlast. app_norm. }
  assert (Hs1 : up ++ (y :: d1 ++ sp ++ x :: sp' ++ z :: d2 ++ uq ++ s2) =
                (up ++ (y :: m1) ++ uq) ++ s2).
  { unfold m1. app_norm. }
  rewrite Hs1, take_consumed in Hg.
  exists (up ++ (y :: m1) ++ uq). split; [done|]. split.
  { rewrite Hs1. exists pre, s2. by rewrite <-!app_assoc. }
  destruct (strip_core up uq m1 _ y w (isdecimal_nospace _ Hy) (isdecimal_nospace _ Hw) Hm)
    as (a0 & a' & b' & b0 & _ & _ & ->).
  destruct (size_token_den y x z d1 sp sp' d2 b' Hy Hd1 Hsp Hx Hsp' Hz Hd2) as [c Hc].
  assert (Heq : (y :: m1) ++ b' = y :: d1 ++ sp ++ x :: sp' ++ z :: d2 ++ b').
  { unfold m1. app_norm. }
  rewrite Heq. exact (search_complete _ _ a' _ _ _ Hc).
Qed.

End RodFacts.

(** ** What the classifier returns *)

Section ClassifyFacts.
Context `{PyRuntime}.
Import Re Pat.

Lemma segment_refl (s : text) : segment s s.
Proof. exists [], []. by rewrite app_nil_r. Qed.

(** [int] of a group that is written as a number. *)
Lemma int_group_number (p : pattern) (n : nat) (s : text) (m : caps) :
  group_from is_number n (re p) = true -> search p s = Some m ->
  exists u, group m n = Some u /\ segment u s /\ u <> [] /\
    forallb isdecimal u = true /\
    int_group m n = if too_many_digits (length u) then Raise ValueError
                    else Ok (number_value u).
Proof.
  intros Hg Hs.
  destruct (search_group_number p n s m Hg Hs) as (u & Hu & Hne & Hdig & Hseg).
  exists u. repeat split; try done.
  unfold int_group. rewrite Hu. by apply py_int_number.
Qed.

Lemma number_too_long (line u : text) :
  segment u line -> forallb isdecimal u = true ->
  too_many_digits (length u) = true -> fits line = false.
Proof.
  intros Hseg Hu Hlong. unfold fits.
  destruct (too_many_digits (digit_run 0 0 line)) eqn:Hf; [done|].
  by rewrite (too_many_digits_mono _ _ (digit_run_segment 0 0 _ _ Hseg Hu) Hf) in Hlong.
Qed.

(** It converts, or raises [ValueError] because the line has a number that
    is too long. *)
Lemma int_group_outcome (p : pattern) (n : nat) (s line : text) (m : caps) :
  group_from is_number n (re p) = true -> search p s = Some m ->
  segment s line ->
  (exists v, int_group m n = Ok v) \/
  (int_group m n = Raise ValueError /\ fits line = false).
Proof.
  intros Hg Hs Hseg.
  destruct (int_group_number p n s m Hg Hs) as (u & _ & Hu & _ & Hdig & ->).
  destruct (too_many_digits (length u)) eqn:Hlong; [right|left; eauto].
  split; [done|]. eapply number_too_long; [|done..]. by eapply segment_trans.
Qed.

(** A rod line, reached, is classified as a rod event once its three numbers
    are converted: the branch that skips a name without a size is never
    taken. *)
Lemma classify_rod_line (cur : option text) (element line : text) (m : caps) :
  cur = Some element -> element <> [] -> is_header line = false ->
  search EMBEDDED_HEADER_RE line = None -> search LINE_RE line = Some m ->
  exists name size, group m g_fullname = Some name /\ segment name line /\
    search SIZE_RE (strip name) = Some size /\
    classify cur line =
      (qty ← int_group m g_qty;
       d ← int_group size g_diameter;
       l ← int_group size g_length;
       Ok (Rod (strip name) d l qty)).
Proof.
  intros -> Hne [H1 H2]%is_header_false Heh Hl.
  destruct (rod_line_name line m Hl) as (name & Hg & Hseg & [size Hsz]).
  exists name, size. repeat split; try done.
  unfold classify.
  rewrite (search_not_blank LINE_RE line m eq_refl Hl), H1, H2, Heh, Hl, Hg, Hsz.
  destruct element; [done|].
  destruct (search EMBEDDED_LINE_RE line) as [m'|] eqn:Hel; [|done].
  destruct (embedded_line_has_header line m' Hel) as [? Hx]. congruence.
Qed.

Lemma classify_outcome (cur : option text) (line : text) :
  (exists a, classify cur line = Ok a) \/
  (classify cur line = Raise ValueError /\ fits line = false).
Proof.
  unfold classify.
  destruct (blank line); [by left; eauto|].
  destruct (search SPEC_ELEMENTS_RE line); [by left; eauto|].
  destruct (search SPEC_HEADER_RE line); [by left; eauto|].
  destruct cur as [[|c t]|]; [by left; eauto| |by left; eauto].
  destruct (search EMBEDDED_LINE_RE line) as [m|] eqn:Hel.
  { destruct (int_group_outcome EMBEDDED_LINE_RE 2 line line m eq_refl Hel
                (segment_refl line)) as [[v ->]|[-> Hf]]; [left|right]; simpl; eauto. }
  destruct (search EMBEDDED_HEADER_RE line); [by left; eauto|].
  destruct (search LINE_RE line) as [m|] eqn:Hl; [|by left; eauto].
  destruct (rod_line_name line m Hl) as (name & Hg & Hseg & _). rewrite Hg.
  destruct (int_group_outcome LINE_RE g_qty line line m eq_refl Hl
              (segment_refl line)) as [[qty ->]|[-> Hf]]; [|by right].
  simpl. destruct (search SIZE_RE (strip name)) as [size|] eqn:Hsz; [|by left; eauto].
  assert (Hstrip : segment (strip name) line).
  { eapply segment_trans; [apply strip_segment|done]. }
  destruct (int_group_outcome SIZE_RE g_diameter _ line size eq_refl Hsz Hstrip)
    as [[d ->]|[-> Hf]]; [|by right].
  destruct (int_group_outcome SIZE_RE g_length _ line size eq_refl Hsz Hstrip)
    as [[l ->]|[-> Hf]]; [|by right].
  left. simpl. eauto.
Qed.

Lemma digitize_line_outcome (st : scan_state) (line : text) :
  (exists st', digitize_line st line = Ok st') \/
  (digitize_line st line = Raise ValueError /\ fits line = false).
Proof.
  rewrite digitize_line_classify.
  destruct (classify_outcome (current_element st) line) as [[a ->]|[-> Hf]];
    [left|right]; simpl; eauto.
Qed.

(** A run over lines returns, or raises [ValueError] at a line with a
    number that is too long. *)
Lemma digitize_lines_outcome (st : scan_state) (lines : list text) :
  (exists st', digitize_lines st lines = Ok st') \/
  (digitize_lines st lines = Raise ValueError /\
   exists line, line ∈ lines /\ fits line = false).
Proof.
  revert st. induction lines as [|line lines IH]; intros st; simpl; [left; eauto|].
  destruct (digitize_line_outcome st line) as [[st1 ->]|[-> Hf]].
  - simpl. destruct (IH st1) as [?|[? (l & Hl & Hf)]]; [by left|right].
    split; [done|]. exists l. split; [by right|done].
  - right. split; [done|]. exists line. split; [by left|done].
Qed.



End ClassifyFacts.

(** ** Rod lines, errors and the embedded instance count *)

(** C10, with the proviso that [int] needs: whenever [LINE_RE] matches a
    line, [SIZE_RE] finds a diameter and a length in the captured name, so
    the branch that drops a rod line for its name is never taken.  When
    such a line is reached and none of its three numbers is too long for
    [int], the loop body records the rod event of the line in the table;
    when one of them is too long, [int] raises [ValueError] and nothing is
    recorded. *)
Theorem rod_line_always_has_size `{PyRuntime} (line : text) (m : Re.caps) :
  Pat.search Pat.LINE_RE line = Some m ->
  exists name size qs ds ls,
    Re.group m Pat.g_fullname = Some name /\
    Pat.search Pat.SIZE_RE (strip name) = Some size /\
    Re.group m Pat.g_qty = Some qs /\
    Re.group size Pat.g_diameter = Some ds /\
    Re.group size Pat.g_length = Some ls /\
    let long := too_many_digits (length qs) || too_many_digits (length ds) ||
                too_many_digits (length ls) in
    (fits line = true -> long = false) /\
    (int_max_str_digits = O -> long = false) /\
    forall st element,
      current_element st = Some element -> element <> [] ->
      is_header line = false ->
      Pat.search Pat.EMBEDDED_HEADER_RE line = None ->
      let ev := {| ev_key := (element, strip name, number_value ds, number_value ls);
                   ev_qty := number_value qs;
                   ev_embedded := in_embedded st;
                   ev_zd_count := embedded_qty st |} in
      classify (current_element st) line <> Ok Skip /\
      (long = false ->
         classify (current_element st) line =
           Ok (Rod (strip name) (number_value ds) (number_value ls) (number_value qs)) /\
         line_events st [line] = Ok [ev] /\
         digitize_line st line =
           Ok {| current_element := current_element st;
                 embedded_qty := embedded_qty st;
                 in_embedded := in_embedded st;
                 rows := record_event (rows st) ev |} /\
         ev_key ev ∈ (record_event (rows st) ev).*1) /\
      (long = true ->
         classify (current_element st) line = Raise ValueError /\
         line_events st [line] = Raise ValueError /\
         digitize_line st line = Raise ValueError).
Proof.
  intros Hl. destruct (rod_line_name line m Hl) as (name & Hg & Hseg & [size Hsz]).
  assert (Hstrip : segment (strip name) line).
  { eapply segment_trans; [apply strip_segment|done]. }
  destruct (int_group_number Pat.LINE_RE Pat.g_qty line m eq_refl Hl)
    as (qs & Hqs & Sqs & _ & Dqs & Iqs).
  destruct (int_group_number Pat.SIZE_RE Pat.g_diameter _ size eq_refl Hsz)
    as (ds & Hds & Sds & _ & Dds & Ids).
  destruct (int_group_number Pat.SIZE_RE Pat.g_length _ size eq_refl Hsz)
    as (ls & Hls & Sls & _ & Dls & Ils).
  exists name, size, qs, ds, ls. do 5 (split; [done|]).
  split; [|split].
  - intros Hf.
    destruct (too_many_digits (length qs)) eqn:Eq.
    { rewrite (number_too_long line qs Sqs Dqs Eq) in Hf. done. }
    destruct (too_many_digits (length ds)) eqn:Ed.
    { rewrite (number_too_long line ds (segment_trans _ _ _ Sds Hstrip) Dds Ed) in Hf.
      done. }
    destruct (too_many_digits (length ls)) eqn:El; [|done].
    rewrite (number_too_long line ls (segment_trans _ _ _ Sls Hstrip) Dls El) in Hf.
    done.
  - unfold too_many_digits. intros ->. by rewrite !andb_false_r.
  - intros st element Hcur Hne Hh Heh.
    destruct (classify_rod_line (current_element st) element line m Hcur Hne Hh Heh Hl)
      as (name' & size' & Hg' & _ & Hsz' & Hc).
    assert (name' = name) as -> by congruence.
    assert (size' = size) as -> by congruence.
    rewrite Iqs, Ids, Ils in Hc.
    split; [|split].
    + rewrite Hc.
      destruct (too_many_digits (length qs)); [done|].
      destruct (too_many_digits (length ds)); [done|].
      by destruct (too_many_digits (length ls)).
    + intros Hlong.
      apply orb_false_iff in Hlong as [Hlong El].
      apply orb_false_iff in Hlong as [Eq Ed].
      rewrite Eq, Ed, El in Hc.
      split; [exact Hc|]. split; [|split].
      * cbn [line_events]. rewrite Hc. cbn. by rewrite Hcur.
      * rewrite digitize_line_classify, Hc. cbn. by rewrite Hcur.
      * rewrite record_event_keys. unfold note_key. cbn [ev_key].
        case_decide as Hin; [done|]. apply elem_of_app. right. apply elem_of_cons. by left.
    + intros Hlong.
      assert (Hr : classify (current_element st) line = Raise ValueError).
      { rewrite Hc.
        destruct (too_many_digits (length qs)); [done|].
        destruct (too_many_digits (length ds)); [done|].
        by destruct (too_many_digits (length ls)). }
      split; [exact Hr|]. split.
      * cbn [line_events]. by rewrite Hr.
      * by rewrite digitize_line_classify, Hr.
Qed.

Lemma rod_line_always_has_size_witness :
  @digitize_line basic_rt
    {| current_element := Some (utf8 "Км-1"); embedded_qty := 0;
       in_embedded := false; rows := [] |} (utf8 "Пруток ⌀12x500 5") =
  Ok {| current_element := Some (utf8 "Км-1"); embedded_qty := 0;
        in_embedded := false;
        rows := [((utf8 "Км-1", utf8 "Пруток ⌀12x500", 12%Z, 500%Z),
                  {| rods_direct := 5; rods_in_zd := 0; zd_count := 0 |})] |}.
Proof.
  destruct (@Pat.search basic_rt Pat.LINE_RE (utf8 "Пруток ⌀12x500 5"))
    as [m|] eqn:Hm; [|by vm_compute in Hm].
  destruct (@rod_line_always_has_size basic_rt _ m Hm)
    as (name & size & qs & ds & ls & Hg & Hs & Hqs & Hds & Hls & Hfits & _ & Hst).
  destruct (Hst {| current_element := Some (utf8 "Км-1"); embedded_qty := 0;
                   in_embedded := false; rows := [] |} (utf8 "Км-1"))
    as (_ & Hok & _); [reflexivity|by vm_compute|by vm_compute|by vm_compute|].
  destruct (Hok (Hfits ltac:(vm_compute; reflexivity))) as (_ & _ & Hline & _).
  rewrite Hline.
  vm_compute in Hm. injection Hm as <-.
  vm_compute in Hg. injection Hg as <-.
  vm_compute in Hqs. injection Hqs as <-.
  vm_compute in Hs. injection Hs as <-.
  vm_compute in Hds. injection Hds as <-.
  vm_compute in Hls. injection Hls as <-.
  vm_compute. reflexivity.
Defined.

(** Against C10 without the proviso: under the default limit of 4300 digits
    [LINE_RE] matches a reached line whose quantity has 4301 digits, yet the
    line emits no event: [int] raises [ValueError]. *)
Lemma rod_line_match_without_event :
  let st := {| current_element := Some (utf8 "Км-1"); embedded_qty := 0;
               in_embedded := false; rows := [] |} in
  let line := utf8 "Пруток 12x500 " ++ replicate 4301 49%N in
  is_Some (@Pat.search basic_rt Pat.LINE_RE line) /\
  @is_header basic_rt line = false /\
  @Pat.search basic_rt Pat.EMBEDDED_HEADER_RE line = None /\
  @classify basic_rt (current_element st) line = Raise ValueError /\
  @line_events basic_rt st [line] = Raise ValueError /\
  @digitize_line basic_rt st line = Raise ValueError.
Proof.
  cbv zeta. split; [|by vm_compute]. eexists. vm_compute. reflexivity.
Qed.

(** C5, with the proviso that [int] needs: a line that matches the
    embedded-item quantity recognizer has the shape of an embedded-item
    header too, yet it never sets the embedded flag, in any state.  When it
    is reached (an element is current and the line is no header) and its
    quantity is not too long for [int], it replaces the embedded instance
    count by the captured quantity and changes nothing else; when the
    quantity is too long, [int] raises [ValueError]. *)
Theorem embedded_quantity_line `{PyRuntime} (line : text) (m : Re.caps) :
  Pat.search Pat.EMBEDDED_LINE_RE line = Some m ->
  is_Some (Pat.search Pat.EMBEDDED_HEADER_RE line) /\
  (forall st st', digitize_line st line = Ok st' ->
     in_embedded st' = true -> in_embedded st = true) /\
  exists ds, Re.group m 2 = Some ds /\ ds <> [] /\ forallb isdecimal ds = true /\
    (fits line = true -> too_many_digits (length ds) = false) /\
    (int_max_str_digits = O -> too_many_digits (length ds) = false) /\
    forall st element,
      current_element st = Some element -> element <> [] ->
      is_header line = false ->
      (too_many_digits (length ds) = false ->
         digitize_line st line =
           Ok {| current_element := current_element st;
                 embedded_qty := number_value ds;
                 in_embedded := in_embedded st; rows := rows st |}) /\
      (too_many_digits (length ds) = true ->
         digitize_line st line = Raise ValueError).
Proof.
  intros Hs.
  destruct (int_group_number Pat.EMBEDDED_LINE_RE 2 line m eq_refl Hs)
    as (ds & Hg & Sds & Hne & Hdig & Hint).
  assert (Hbody : forall st element t,
            current_element st = Some (element :: t) -> is_header line = false ->
            digitize_line st line =
              if too_many_digits (length ds) then Raise ValueError
              else Ok {| current_element := current_element st;
                         embedded_qty := number_value ds;
                         in_embedded := in_embedded st; rows := rows st |}).
  { intros st c t Hcur [H1 H2]%is_header_false. unfold digitize_line.
    rewrite (search_not_blank Pat.EMBEDDED_LINE_RE line m eq_refl Hs), H1, H2, Hcur, Hs.
    rewrite Hint. by destruct (too_many_digits (length ds)). }
  split; [by eapply embedded_line_has_header|]. split.
  - intros st st' Hrun Hflag.
    destruct (is_header line) eqn:Hh.
    + destruct (header_line (current_element st) line Hh) as (code & _ & _ & Hc).
      rewrite digitize_line_classify, Hc in Hrun. cbn in Hrun.
      injection Hrun as <-. done.
    + destruct (current_element st) as [[|c t]|] eqn:Hcur.
      * rewrite digitize_line_classify, Hcur, classify_unset in Hrun by auto.
        cbn in Hrun. by injection Hrun as <-.
      * rewrite (Hbody st c t Hcur eq_refl) in Hrun.
        destruct (too_many_digits (length ds)); [done|]. by injection Hrun as <-.
      * rewrite digitize_line_classify, Hcur, classify_unset in Hrun by auto.
        cbn in Hrun. by injection Hrun as <-.
  - exists ds. do 3 (split; [done|]). split; [|split].
    + intros Hf. destruct (too_many_digits (length ds)) eqn:E; [|done].
      rewrite (number_too_long line ds Sds Hdig E) in Hf. done.
    + unfold too_many_digits. intros ->. by rewrite !andb_false_r.
    + intros st element Hcur Hel Hh. destruct element as [|c t]; [done|].
      rewrite (Hbody st c t Hcur Hh).
      split; intros ->; done.
Qed.

(** Against C5 without the proviso: under the default limit of 4300 digits
    a reached line that the embedded-item quantity recognizer matches with
    a quantity of 4301 digits sets no count: [int] raises [ValueError]. *)
Lemma embedded_quantity_not_set :
  let line := utf8 "Изделие закладное ЗД-1 " ++ replicate 4301 49%N in
  is_Some (@Pat.search basic_rt Pat.EMBEDDED_LINE_RE line) /\
  @is_header basic_rt line = false /\
  @digitize_line basic_rt st_in_embedded line = Raise ValueError.
Proof.
  cbv zeta. split; [|by vm_compute]. eexists. vm_compute. reflexivity.
Qed.

Section Tolerance.
Context `{PyRuntime}.
Import Pat.

(** The scan either returns or raises [ValueError] at a number that is too
    long for [int]. *)
Lemma digitize_outcome (pages : list page) (oc : gmap text Z) :
  (exists out, digitize pages oc = Ok out) \/
  (digitize pages oc = Raise ValueError /\
   exists line, line ∈ document_lines pages /\ fits line = false).
Proof.
  rewrite digitize_scan.
  destruct (digitize_lines_outcome scan_init (document_lines pages))
    as [[st ->]|[-> Hl]]; [left|right]; simpl; eauto.
Qed.

Lemma digitize_returns (pages : list page) (oc : gmap text Z) :
  Forall (fun line => fits line = true) (document_lines pages) ->
  returns (digitize pages oc).
Proof.
  intros Hf. destruct (digitize_outcome pages oc) as [Hr|[_ (line & Hin & Hl)]]; [done|].
  rewrite Forall_forall in Hf. specialize (Hf line Hin). congruence.
Qed.



End Tolerance.






(** ** The object counts of page 0 *)

Section ObjectCounts.
Context `{PyRuntime}.
Import Re Pat.

Lemma last_pair_cons (code : text) (p : text * text) (ps : list (text * text)) :
  last_pair code (p :: ps) =
  match last_pair code ps with
  | Some ds => Some ds
  | None => if bool_decide (p.1 = code) then Some p.2 else None
  end.
Proof.
  unfold last_pair. simpl.
  generalize (if bool_decide (p.1 = code) then Some p.2 else @None text).
  induction ps as [|q ps IH] using rev_ind; intros o; [done|].
  rewrite !foldl_snoc. destruct (bool_decide (q.1 = code)); [done|]. apply IH.
Qed.

(** What [findall] finds for [OBJECT_RE]: the second group is a number that
    stands in the text. *)
Lemma findall_object_number (s : text) (m : caps) :
  m ∈ findall OBJECT_RE s ->
  exists u, group m 2 = Some u /\ u <> [] /\ forallb isdecimal u = true /\
    segment u s.
Proof.
  intros Hin. destruct (findall_from_sound _ _ _ _ _ Hin) as (pre & s1 & s' & -> & Hd).
  destruct (den_group_number _ 2 (re OBJECT_RE) _ _ _ _ eq_refl Hd) as (u & Hu & Hne & Hdig & Hseg).
  exists u. repeat split; try done. by apply segment_app_l.
Qed.

Lemma object_dict_lookup (acc d : gmap text Z) (ms : list caps) :
  Forall (fun m => exists u, group m 2 = Some u /\ u <> [] /\
                     forallb isdecimal u = true) ms ->
  object_dict acc ms = Ok d ->
  forall code, d !! code =
    match last_pair code (pair_of <$> ms) with
    | Some ds => Some (number_value ds)
    | None => acc !! code
    end.
Proof.
  intros Hms. revert acc.
  induction Hms as [|m ms (u & Hu & Hne & Hdig) Hms IH]; intros acc.
  - by intros [= <-] code.
  - cbn [object_dict]. rewrite Hu. change (default [] (Some u)) with u.
    rewrite (py_int_number u Hne Hdig).
    destruct (too_many_digits (length u)); [done|].
    intros Hd code. rewrite (IH _ Hd code), fmap_cons, last_pair_cons.
    destruct (last_pair code (pair_of <$> ms)); [done|].
    unfold pair_of. rewrite Hu. change (default [] (Some u)) with u.
    cbn [fst snd]. case_bool_decide as Hk.
    + rewrite Hk. by rewrite lookup_insert_eq.
    + by rewrite lookup_insert_ne.
Qed.

Lemma object_dict_returns (acc : gmap text Z) (ms : list caps) :
  Forall (fun m => exists u, group m 2 = Some u /\ u <> [] /\
                     forallb isdecimal u = true /\
                     too_many_digits (length u) = false) ms ->
  returns (object_dict acc ms).
Proof.
  intros Hms. revert acc.
  induction Hms as [|m ms (u & Hu & Hne & Hdig & Hlen) Hms IH]; intros acc; simpl.
  - by exists acc.
  - rewrite Hu. simpl. rewrite (py_int_number u Hne Hdig), Hlen. simpl. apply IH.
Qed.

End ObjectCounts.

(** C3, for a document that has a page 0: [extract_object_counts] reads
    page 0 only.  When the text of page 0 is [None] or empty, the result is
    the empty map and nothing is raised.  When page 0 has text, each code
    that [OBJECT_RE] finds with a number is mapped to that number, the last
    occurrence of a code winning; the extraction returns whenever no number
    of the page is too long for [int]. *)
Theorem object_counts_from_page_0 `{PyRuntime} (p : page) (rest : list page) :
  extract_object_counts (p :: rest) = extract_object_counts [p] /\
  (p = None \/ p = Some [] -> extract_object_counts (p :: rest) = Ok ∅) /\
  (forall s, p = Some s ->
     (fits s = true -> returns (extract_object_counts (p :: rest))) /\
     forall counts, extract_object_counts (p :: rest) = Ok counts ->
       forall code,
         counts !! code =
         number_value <$> last_pair code (pair_of <$> Pat.findall Pat.OBJECT_RE s)).
Proof.
  split; [done|]. split.
  - by intros [-> | ->].
  - intros s ->. unfold extract_object_counts.
    replace (match s with [] => [] | c :: t => c :: t end) with s by (by destruct s).
    split.
    + intros Hf. apply object_dict_returns, Forall_forall. intros m Hm.
      destruct (findall_object_number s m Hm) as (u & Hu & Hne & Hdig & Hseg).
      exists u. repeat split; try done.
      destruct (too_many_digits (length u)) eqn:Hlong; [|done].
      by rewrite (number_too_long s u Hseg Hdig Hlong) in Hf.
    + intros counts Hd code.
      assert (Hms : Forall (fun m => exists u, Re.group m 2 = Some u /\ u <> [] /\
                              forallb isdecimal u = true)
                      (Pat.findall Pat.OBJECT_RE s)).
      { apply Forall_forall. intros m Hm.
        destruct (findall_object_number s m Hm) as (u & ? & ? & ? & _). eauto. }
      rewrite (object_dict_lookup ∅ counts _ Hms Hd code).
      by destruct (last_pair code _).
Qed.

Lemma object_counts_from_page_0_witness :
  exists counts,
    @extract_object_counts basic_rt [page_duplicate_code; None] = Ok counts /\
    counts !! utf8 "Км-1" = Some 5%Z /\ counts !! utf8 "Бм-2" = Some 10%Z /\
    counts !! utf8 "Пм-1" = None.
Proof.
  destruct (@object_counts_from_page_0 basic_rt page_duplicate_code [None])
    as (_ & _ & Hp).
  destruct (Hp _ eq_refl) as [Hret Hlook].
  destruct Hret as [counts Hc]; [by vm_compute|].
  exists counts. split; [exact Hc|].
  rewrite !(Hlook counts Hc). by vm_compute.
Defined.

(** Against C3 for a document without pages: there page 0 is absent,
    [pdf.pages[0]] raises [IndexError], and no map is returned. *)
Lemma object_counts_no_page :
  @extract_object_counts basic_rt [] = Raise IndexError /\
  @extract_object_counts basic_rt [] <> Ok ∅.
Proof. split; [reflexivity|discriminate]. Qed.

(** ** The theorems on concrete lines *)

Lemma header_resets_embedded_state_witness :
  @is_header basic_rt (utf8 "Балка Бм-2") = true /\
  @digitize_lines basic_rt st_in_embedded
    [utf8 "Балка Бм-2"; utf8 "Марка Обозначение Кол."; utf8 "Пруток 12x500 5"] =
    Ok {| current_element := Some (utf8 "Бм-2"); embedded_qty := 0;
          in_embedded := false;
          rows := [((utf8 "Бм-2", utf8 "Пруток 12x500", 12%Z, 500%Z),
                    {| rods_direct := 5; rods_in_zd := 0; zd_count := 0 |})] |}.
Proof.
  assert (Hh : @is_header basic_rt (utf8 "Балка Бм-2") = true) by (vm_compute; reflexivity).
  split; [exact Hh|].
  destruct (@header_resets_embedded_state basic_rt st_in_embedded _ Hh)
    as (code & Hc & _ & _ & Hrod).
  vm_compute in Hc. injection Hc as <-.
  etransitivity.
  - apply (Hrod [utf8 "Марка Обозначение Кол."]
             {| current_element := Some (utf8 "Бм-2"); embedded_qty := 0;
                in_embedded := false; rows := [] |}
             (utf8 "Пруток 12x500 5") (utf8 "Пруток 12x500") 12%Z 500%Z 5%Z).
    + repeat constructor; vm_compute; reflexivity.
    + vm_compute. reflexivity.
    + vm_compute. reflexivity.
  - vm_compute. reflexivity.
Defined.

Lemma embedded_quantity_line_witness :
  @digitize_line basic_rt st_in_embedded (utf8 "Изделие закладное ЗД-2 9") =
    Ok {| current_element := Some (utf8 "Км-1"); embedded_qty := 9;
          in_embedded := true; rows := [] |}.
Proof.
  destruct (@Pat.search basic_rt Pat.EMBEDDED_LINE_RE (utf8 "Изделие закладное ЗД-2 9"))
    as [m|] eqn:Hm; [|by vm_compute in Hm].
  destruct (@embedded_quantity_line basic_rt (utf8 "Изделие закладное ЗД-2 9") m Hm)
    as (_ & _ & ds & Hg & _ & _ & Hfits & _ & Hst).
  destruct (Hst st_in_embedded (utf8 "Км-1")) as (Hline & _);
    [reflexivity|by vm_compute|by vm_compute|].
  rewrite (Hline (Hfits ltac:(vm_compute; reflexivity))).
  vm_compute in Hm. injection Hm as <-.
  vm_compute in Hg. injection Hg as <-.
  vm_compute. reflexivity.
Defined.

Lemma state_persists_across_pages_witness :
  @digitize_pages basic_rt scan_init 1
    [Some (utf8 "Колонна Км-1"); None; Some (utf8 "Пруток 12x500 5")] =
  @digitize_lines basic_rt scan_init [utf8 "Колонна Км-1"; utf8 "Пруток 12x500 5"].
Proof.
  destruct (@state_persists_across_pages basic_rt scan_init) as (Hp & _).
  rewrite Hp by done. vm_compute. reflexivity.
Defined.

Lemma lines_before_first_header_ignored_witness :
  @digitize_lines basic_rt scan_init
    [utf8 "Пруток 12x500 5"; utf8 "Изделие закладное ЗД-1 4";
     utf8 "Колонна Км-1"; utf8 "Пруток 10x300 2"] =
  @digitize_lines basic_rt scan_init [utf8 "Колонна Км-1"; utf8 "Пруток 10x300 2"].
Proof.
  destruct (@lines_before_first_header_ignored basic_rt scan_init
              [utf8 "Пруток 12x500 5"; utf8 "Изделие закладное ЗД-1 4"]
              [utf8 "Колонна Км-1"; utf8 "Пруток 10x300 2"])
    as (_ & Hd & _); [reflexivity| |exact Hd].
  repeat constructor; vm_compute; reflexivity.
Defined.

(** ** Examples *)

(** The column of [doc_column]: 5 direct rods in each of 3 columns, and 2
    rods in each of 4 embedded items of each column. *)
Example column_rows :
  (fun r => (row_direct r, row_in_zd r, row_objects r, row_zd_count r, row_total r))
    <$> out_column = [(5, 0, 3, 0, 15); (0, 2, 3, 4, 24)]%Z.
Proof. reflexivity. Qed.

(** An element that page 0 does not list counts once. *)
Example missing_entry_counts_once :
  (fun r => (row_objects r, row_total r)) <$>
    match @digitize basic_rt doc_column ∅ with Ok out => out | Raise _ => [] end =
  [(1, 5); (1, 8)]%Z.
Proof. vm_compute. reflexivity. Qed.

(** The recognizers ignore case, and a header wins over a rod line. *)
Example header_any_case :
  @header_code basic_rt (utf8 "  КОЛОННА   км-12") = Some (utf8 "км-12").
Proof. vm_compute. reflexivity. Qed.

Example header_before_rod_line :
  @classify basic_rt (Some (utf8 "Бм-1")) (utf8 "Колонна Км-1 Пруток 12x500 5") =
  Ok (SetElement (Some (utf8 "Км-1"))).
Proof. vm_compute. reflexivity. Qed.

(** A rod line with a standard, a diameter sign and a grade. *)
Example rod_line_with_standard :
  @classify basic_rt (Some (utf8 "Км-1"))
    (utf8 "1 ГОСТ 34028-2016 Пруток ∅ 12 х 500-A500С  7 0.9") =
  Ok (Rod (utf8 "ГОСТ 34028-2016 Пруток ∅ 12 х 500-A500С") 12 500 7).
Proof. vm_compute. reflexivity. Qed.

Example splitlines_boundaries :
  splitlines [97; 13; 10; 98; 10; 10; 99; 10] = [[97]; [98]; []; [99]].
Proof. reflexivity. Qed.

Example first_occurrences_order (a b c : key) :
  a <> b -> a <> c -> b <> c ->
  first_occurrences [b; a; b; c; a] = [b; a; c].
Proof.
  intros Hab Hac Hbc. simpl.
  repeat (first [rewrite filter_cons_True by congruence
                |rewrite filter_cons_False by (intros Hx; by apply Hx)
                |rewrite filter_nil]).
  done.
Qed.

(** With the limit on integer strings switched off, the document with the
    long number is digitized. *)
Example long_number_without_limit :
  returns (@digitize unlimited_rt doc_long_number ∅).
Proof.
  apply digitize_returns, Forall_forall. intros line _.
  by apply fits_no_limit.
Qed.

(** * Further properties of the scan *)

(** ** What a classification tells about its line *)

Section ClassifyInversion.
Context `{PyRuntime}.
Import Re Pat.

Lemma classify_rod_facts (cur : option text) (line name : text) (d l q : Z) :
  classify cur line = Ok (Rod name d l q) ->
  exists m s size,
    search LINE_RE line = Some m /\ group m g_fullname = Some s /\
    name = strip s /\ search SIZE_RE name = Some size /\
    int_group m g_qty = Ok q /\
    int_group size g_diameter = Ok d /\ int_group size g_length = Ok l.
Proof.
  unfold classify, mbind, result_bind.
  repeat (case_match; simplify_eq/=; try done).
  intros [= <- <- <- <-]. eauto 10.
Qed.

Lemma classify_quantity_facts (cur : option text) (line : text) (q : Z) :
  classify cur line = Ok (SetQuantity q) ->
  exists m, search EMBEDDED_LINE_RE line = Some m /\ int_group m 2 = Ok q.
Proof.
  unfold classify, mbind, result_bind.
  repeat (case_match; simplify_eq/=; try done).
  intros [= <-]. eauto.
Qed.

(** The classifier sets the element exactly at the header lines, to the
    code that the line announces. *)
Lemma classify_header (cur : option text) (line : text) (a : action) :
  classify cur line = Ok a ->
  if is_header line then a = SetElement (header_code line)
  else forall e, a <> SetElement e.
Proof.
  destruct (is_header line) eqn:Hh.
  - destruct (header_line cur line Hh) as (code & Hc & _ & Hcl).
    rewrite Hcl, Hc. by intros [= <-].
  - apply is_header_false in Hh as [H1 H2].
    unfold classify, mbind, result_bind. rewrite H1, H2.
    repeat (case_match; simplify_eq/=; try done); by intros [= <-] e.
Qed.

(** The rod events of a run satisfy what every step of the run ensures. *)
Lemma line_events_invariant (R : text -> Prop) (I : scan_state -> Prop)
    (P : event -> Prop) :
  (forall st line a, R line -> I st ->
     classify (current_element st) line = Ok a ->
     I (apply_action st a) /\ forall ev, action_event st a = Some ev -> P ev) ->
  forall lines st evs,
    Forall R lines -> I st -> line_events st lines = Ok evs -> Forall P evs.
Proof.
  intros Hstep lines. induction lines as [|line lines IH]; intros st evs HR HI; simpl.
  - intros [= <-]. constructor.
  - apply Forall_cons in HR as [Hline HR].
    destruct (classify (current_element st) line) as [a|] eqn:Ha; [|done]. simpl.
    destruct (line_events (apply_action st a) lines) as [evs1|] eqn:He; [|done]. simpl.
    intros [= <-]. destruct (Hstep st line a Hline HI Ha) as [HI' HP].
    specialize (IH _ _ HR HI' He).
    destruct (action_event st a) as [ev|]; [|done]. constructor; eauto.
Qed.

End ClassifyInversion.

(** ** Lines and pages that change nothing *)

Section QuietLines.
Context `{PyRuntime}.
Import Re Pat.

Lemma search_has_digit (p : pattern) (line : text) (m : caps) :
  needs_digit (re p) = true -> search p line = Some m ->
  exists x, x ∈ line /\ isdecimal x = true.
Proof.
  intros Hn Hs. destruct (search_sound _ _ _ _ Hs) as (pre & s1 & s' & -> & Hd).
  destruct (den_needs_digit _ _ _ _ _ _ Hn Hd) as (a & x & b & -> & Hx).
  exists x. split; [|done]. rewrite !elem_of_app, elem_of_cons. tauto.
Qed.

Lemma search_without_digit (p : pattern) (line : text) :
  Forall (fun c => isdecimal c = false) line ->
  needs_digit (re p) = true -> search p line = None.
Proof.
  intros Hl Hn. destruct (search p line) as [m|] eqn:Hs; [|done].
  destruct (search_has_digit p line m Hn Hs) as (x & Hin & Hx).
  rewrite Forall_forall in Hl. rewrite (Hl x Hin) in Hx. done.
Qed.

Lemma lstrip_by_all (p : char -> bool) (s : text) :
  Forall (fun c => p c = true) s -> lstrip_by p s = [].
Proof.
  induction 1 as [|c s Hc Hs IH]; simpl; [done|]. by rewrite Hc.
Qed.

Lemma blank_white_space (line : text) :
  Forall (fun c => isspace c = true) line -> blank line = true.
Proof.
  intros Hl. unfold blank, strip, strip_by.
  rewrite (lstrip_by_all _ _ Hl). by destruct line.
Qed.

Lemma blank_lines_skipped (st : scan_state) (lines : list text) :
  Forall (fun line => blank line = true) lines -> digitize_lines st lines = Ok st.
Proof.
  induction 1 as [|line lines Hb Hl IH]; simpl; [done|].
  unfold digitize_line. by rewrite Hb.
Qed.

(** The lines of a text are made of characters of the text. *)
Lemma splitlines_aux_chars (cur s : text) (after_cr : bool) :
  Forall (fun line => forall c, c ∈ line -> c ∈ cur \/ c ∈ s)
    (splitlines_aux cur after_cr s).
Proof.
  revert cur after_cr.
  induction s as [|c0 s IH]; intros cur after_cr; cbn [splitlines_aux].
  - destruct cur as [|c1 cur]; [constructor|].
    constructor; [|constructor]. intros c Hc. rewrite elem_of_reverse in Hc. by left.
  - destruct ((c0 =? 10) && after_cr).
    { eapply Forall_impl; [apply IH|]. intros line Hline c Hc.
      destruct (Hline c Hc) as [Hx%elem_of_nil|Hx]; [done|]. right. by right. }
    destruct (is_linebreak c0).
    + constructor.
      * intros c Hc. rewrite elem_of_reverse in Hc. by left.
      * eapply Forall_impl; [apply IH|]. intros line Hline c Hc.
        destruct (Hline c Hc) as [Hx%elem_of_nil|Hx]; [done|]. right. by right.
    + eapply Forall_impl; [apply IH|]. intros line Hline c Hc.
      destruct (Hline c Hc) as [[->|Hx]%elem_of_cons|Hx].
      * right. by left.
      * by left.
      * right. by right.
Qed.

Lemma splitlines_chars (s : text) :
  Forall (fun line => forall c, c ∈ line -> c ∈ s) (splitlines s).
Proof.
  eapply Forall_impl; [apply (splitlines_aux_chars [] s false)|].
  intros line Hline c Hc. by destruct (Hline c Hc) as [Hx%elem_of_nil|Hx].
Qed.

End QuietLines.

(** X1: [digitize] never scans page 0: the result is the same whatever page
    0 holds, and a document of one page or none gives no rows. *)
Theorem page_0_is_not_scanned `{PyRuntime} (p q : page) (pages : list page)
    (object_counts : gmap text Z) :
  digitize (p :: pages) object_counts = digitize (q :: pages) object_counts /\
  digitize [p] object_counts = Ok [] /\
  digitize [] object_counts = Ok [].
Proof. by rewrite !digitize_scan. Qed.

(** X2: a line without any decimal digit is ignored in every state: it
    changes neither the classifier state nor the table, and emits no rod
    event (every recognizer asks for a number). *)
Theorem line_without_digit_ignored `{PyRuntime} (st : scan_state) (line : text) :
  Forall (fun c => isdecimal c = false) line ->
  digitize_line st line = Ok st /\
  classify (current_element st) line = Ok Skip.
Proof.
  intros Hl.
  assert (H1 : Pat.search Pat.SPEC_ELEMENTS_RE line = None)
    by (by apply search_without_digit).
  assert (H2 : Pat.search Pat.SPEC_HEADER_RE line = None)
    by (by apply search_without_digit).
  assert (H3 : Pat.search Pat.EMBEDDED_LINE_RE line = None)
    by (by apply search_without_digit).
  assert (H4 : Pat.search Pat.EMBEDDED_HEADER_RE line = None)
    by (by apply search_without_digit).
  assert (H5 : Pat.search Pat.LINE_RE line = None)
    by (by apply search_without_digit).
  assert (Hc : classify (current_element st) line = Ok Skip).
  { unfold classify. rewrite H1, H2, H3, H4, H5.
    destruct (blank line); [done|]. by destruct (current_element st) as [[|c t]|]. }
  split; [|done]. by rewrite digitize_line_classify, Hc.
Qed.

Lemma line_without_digit_ignored_witness :
  @digitize_line basic_rt st_in_embedded (utf8 "Марка Обозначение Наименование") =
  Ok st_in_embedded.
Proof.
  apply (@line_without_digit_ignored basic_rt).
  apply Forall_forall. intros c Hc. vm_compute in Hc.
  repeat (apply elem_of_cons in Hc as [->|Hc]; [reflexivity|]).
  by apply elem_of_nil in Hc.
Defined.

(** X3: empty lines and lines of white space are ignored wherever they
    stand, and so is a page whose text is white space only. *)
Theorem white_space_is_ignored `{PyRuntime} (st : scan_state) (ws : text) :
  Forall (fun c => isspace c = true) ws ->
  (forall before after,
     digitize_lines st (before ++ ws :: after) = digitize_lines st (before ++ after)) /\
  (forall idx, digitize_page st idx (Some ws) = Ok st).
Proof.
  intros Hws. split.
  - intros before after. rewrite !digitize_lines_app.
    destruct (digitize_lines st before) as [st1|]; [|done]. simpl.
    unfold digitize_line. by rewrite (blank_white_space ws Hws).
  - intros idx. unfold digitize_page. destruct (Nat.eqb idx 0); [done|].
    destruct ws as [|c t]; [done|]. apply blank_lines_skipped.
    eapply Forall_impl; [apply splitlines_chars|].
    intros line Hline. apply blank_white_space, Forall_forall.
    intros x Hx. rewrite Forall_forall in Hws. by apply Hws, Hline.
Qed.

Lemma white_space_is_ignored_witness :
  @digitize_lines basic_rt st_in_embedded
    [utf8 "Пруток 12x500 5"; [32; 9; 160]; utf8 "Пруток 12x500 3"] =
  @digitize_lines basic_rt st_in_embedded
    [utf8 "Пруток 12x500 5"; utf8 "Пруток 12x500 3"] /\
  @digitize_page basic_rt st_in_embedded 3 (Some [32; 9; 160]) = Ok st_in_embedded.
Proof.
  assert (Hws : Forall (fun c => isspace c = true) [32; 9; 160])
    by (repeat constructor).
  destruct (@white_space_is_ignored basic_rt st_in_embedded _ Hws) as [Hl Hp].
  split; [exact (Hl [utf8 "Пруток 12x500 5"] [utf8 "Пруток 12x500 3"])|exact (Hp 3%nat)].
Defined.

(** ** The current element and the embedded context *)

Section ContextFacts.
Context `{PyRuntime}.
Import Pat.

Lemma apply_action_element (st : scan_state) (a : action) :
  (forall e, a <> SetElement e) ->
  current_element (apply_action st a) = current_element st.
Proof.
  intros Hne. destruct a; try done.
  - by destruct (Hne e).
  - simpl. unfold action_event. by destruct (current_element st) eqn:E.
Qed.

Lemma digitize_line_element (st st' : scan_state) (line : text) :
  digitize_line st line = Ok st' ->
  current_element st' =
    if is_header line then header_code line else current_element st.
Proof.
  rewrite digitize_line_classify.
  destruct (classify (current_element st) line) as [a|] eqn:Ha; [|done].
  simpl. intros [= <-]. pose proof (classify_header _ _ _ Ha) as Hh.
  destruct (is_header line).
  - by subst a.
  - by apply apply_action_element.
Qed.

Lemma header_code_not_empty (line : text) :
  is_header line = true ->
  exists code, header_code line = Some code /\ code <> [].
Proof.
  intros Hh. destruct (header_line None line Hh) as (code & Hc & Hne & _). eauto.
Qed.


End ContextFacts.

(** X4: after a run over lines the current element is the code announced by
    the last section marker or element header among them (the element from
    before, when there is none).  It is never the empty string and, once
    set, never unset. *)
Theorem current_element_is_last_header `{PyRuntime} (st st' : scan_state)
    (lines : list text) :
  digitize_lines st lines = Ok st' ->
  current_element st' = element_after (current_element st) lines /\
  (current_element st <> Some [] -> current_element st' <> Some []) /\
  (is_Some (current_element st) -> is_Some (current_element st')).
Proof.
  revert st. induction lines as [|line lines IH]; intros st; simpl.
  - by intros [= <-].
  - destruct (digitize_line st line) as [st1|] eqn:Hd; [|done]. simpl. intros Hr.
    destruct (IH _ Hr) as (E1 & E2 & E3).
    pose proof (digitize_line_element _ _ _ Hd) as He.
    split; [by rewrite E1, He|].
    destruct (is_header line) eqn:Hh.
    + destruct (header_code_not_empty line Hh) as (code & Hc & Hne).
      rewrite Hc in He. split.
      * intros _. apply E2. rewrite He. by intros [= ->].
      * intros _. apply E3. by rewrite He.
    + rewrite He in E2, E3. done.
Qed.

Lemma current_element_is_last_header_witness :
  exists st',
    @digitize_lines basic_rt scan_init
      [utf8 "Пруток 12x500 5"; utf8 "Колонна Км-1"; utf8 "Пруток 12x500 5";
       utf8 "Спецификация элементов СТм-3"; utf8 "Изделие закладное ЗД-1 4"] = Ok st' /\
    current_element st' = Some (utf8 "СТм-3").
Proof.
  destruct (@digitize_lines basic_rt scan_init
      [utf8 "Пруток 12x500 5"; utf8 "Колонна Км-1"; utf8 "Пруток 12x500 5";
       utf8 "Спецификация элементов СТм-3"; utf8 "Изделие закладное ЗД-1 4"])
    as [st'|] eqn:Hrun; [|by vm_compute in Hrun].
  exists st'. split; [done|].
  destruct (@current_element_is_last_header basic_rt _ _ _ Hrun) as (-> & _).
  vm_compute. reflexivity.
Defined.



(** ** The rows and the rod events *)

Lemma first_occurrences_elem (ks : list key) (k : key) :
  k ∈ first_occurrences ks <-> k ∈ ks.
Proof.
  induction ks as [|k0 ks IH]; simpl; [done|].
  rewrite !elem_of_cons, list_elem_of_filter, IH. split.
  - intros [->|[_ Hin]]; auto.
  - intros [->|Hin]; [by left|]. destruct (decide (k = k0)); auto.
Qed.

Lemma first_occurrences_length (ks : list key) :
  (length (first_occurrences ks) <= length ks)%nat.
Proof.
  induction ks as [|k0 ks IH]; simpl; [done|].
  pose proof (length_filter (fun k' => k' <> k0) (first_occurrences ks)). lia.
Qed.

Lemma note_key_grows (ks : list key) (k : key) :
  ks `prefix_of` note_key ks k /\ (length (note_key ks k) <= S (length ks))%nat.
Proof.
  unfold note_key. destruct (decide (k ∈ ks)).
  - split; [done|lia].
  - split; [by exists [k]|]. rewrite length_app. simpl. lia.
Qed.

Section RowsAndEvents.
Context `{PyRuntime}.
Import Re Pat.

Lemma result_row_fields (oc : gmap text Z) (rs : list (key * counts)) (r : out_row) :
  r ∈ result_row oc <$> rs ->
  row_objects r = object_multiplier oc (row_element r) /\
  row_total r =
    (row_direct r * row_objects r + row_in_zd r * row_zd_count r * row_objects r)%Z.
Proof. by intros [[[[[e n] d] l] c] [-> _]]%list_elem_of_fmap. Qed.

Lemma digitize_result_rows (pages : list page) (oc : gmap text Z) (out : list out_row) :
  digitize pages oc = Ok out ->
  exists st, digitize_lines scan_init (document_lines pages) = Ok st /\
    out = result_row oc <$> rows st.
Proof.
  rewrite digitize_scan.
  destruct (digitize_lines scan_init (document_lines pages)) as [st|]; [|done].
  simpl. intros [= <-]. by exists st.
Qed.

(** Every row comes from a rod event with its key. *)
Lemma row_has_event (pages : list page) (oc : gmap text Z) (out : list out_row)
    (evs : list event) (r : out_row) :
  digitize pages oc = Ok out -> document_events pages = Ok evs -> r ∈ out ->
  exists ev, ev ∈ evs /\ ev_key ev = row_key r.
Proof.
  intros Hrun Hev Hr. destruct (digitize_rows pages oc out Hrun) as (evs' & Hev' & Hkeys & _).
  assert (evs' = evs) as -> by congruence.
  assert (Hk : row_key r ∈ row_key <$> out) by (apply list_elem_of_fmap; eauto).
  rewrite Hkeys, first_occurrences_elem in Hk.
  apply list_elem_of_fmap in Hk as (ev & Hk & Hin). eauto.
Qed.

Lemma digitize_line_rows_grow (st st' : scan_state) (line : text) :
  digitize_line st line = Ok st' ->
  (rows st).*1 `prefix_of` (rows st').*1 /\
  (length (rows st') <= S (length (rows st)))%nat /\
  exists k0, forall k, k <> k0 -> rows_get k (rows st') = rows_get k (rows st).
Proof.
  rewrite digitize_line_classify.
  destruct (classify (current_element st) line) as [a|]; [|done]. simpl.
  intros [= <-]. rewrite rows_apply_action.
  destruct (action_event st a) as [ev|].
  - rewrite <-(length_fmap fst (record_event _ _)), <-(length_fmap fst (rows st)).
    rewrite record_event_keys.
    destruct (note_key_grows (rows st).*1 (ev_key ev)) as [Hp Hlen].
    split; [done|]. split; [done|]. exists (ev_key ev). intros k Hk.
    by rewrite record_event_get, decide_False.
  - split; [done|]. split; [lia|]. by exists ([], [], 0%Z, 0%Z).
Qed.

End RowsAndEvents.

(** X6: each row sums the rod events of its key: the direct rods are the
    sum of the direct quantities, and the total is (direct rods + embedded
    rods x the embedded instance count of the last embedded event) x the
    object multiplier.  So all embedded rods of a key are multiplied by the
    one count that was seen last. *)
Theorem row_totals_from_events `{PyRuntime} (pages : list page)
    (object_counts : gmap text Z) (out : list out_row) :
  digitize pages object_counts = Ok out ->
  exists evs, document_events pages = Ok evs /\
    forall r, r ∈ out ->
      row_direct r = sum_qty false (row_key r) evs /\
      row_total r =
        ((sum_qty false (row_key r) evs +
          sum_qty true (row_key r) evs * last_zd_count (row_key r) evs) *
         object_multiplier object_counts (row_element r))%Z.
Proof.
  intros Hrun. destruct (digitize_rows pages object_counts out Hrun) as (evs & Hev & _ & Hrows).
  destruct (digitize_result_rows pages object_counts out Hrun) as (st & _ & Hout).
  exists evs. split; [done|]. intros r Hr.
  destruct (Hrows r Hr) as (Hd & Hz & Hc).
  rewrite Hout in Hr. destruct (result_row_fields _ _ _ Hr) as [Hm Ht].
  split; [done|]. rewrite Ht, Hm, Hd, Hz, Hc. ring.
Qed.

Lemma row_totals_from_events_witness :
  @digitize basic_rt doc_two_quantities ∅ = Ok out_two_quantities /\
  forall r, r ∈ out_two_quantities -> row_direct r = 0%Z /\ row_total r = 28%Z.
Proof.
  assert (Hrun : @digitize basic_rt doc_two_quantities ∅ = Ok out_two_quantities)
    by (vm_compute; reflexivity).
  split; [exact Hrun|]. intros r Hr.
  destruct (@row_totals_from_events basic_rt _ _ _ Hrun) as (evs & Hev & Hrows).
  destruct (Hrows r Hr) as [Hd Ht]. rewrite Hd, Ht.
  vm_compute in Hev. injection Hev as <-.
  unfold out_two_quantities in Hr.
  repeat (apply elem_of_cons in Hr as [->|Hr]; [vm_compute; done|]).
  by apply elem_of_nil in Hr.
Defined.

(** X7: the result has one row for each key that has a rod event, and no
    other row: the keys of the rows are pairwise different, they are the
    keys of the rod events, and there are at most as many rows as events. *)
Theorem one_row_per_key `{PyRuntime} (pages : list page)
    (object_counts : gmap text Z) (out : list out_row) :
  digitize pages object_counts = Ok out ->
  NoDup (row_key <$> out) /\
  exists evs, document_events pages = Ok evs /\
    (forall k, k ∈ row_key <$> out <-> k ∈ ev_key <$> evs) /\
    (length out <= length evs)%nat.
Proof.
  intros Hrun. destruct (digitize_rows pages object_counts out Hrun) as (evs & Hev & Hkeys & _).
  split; [rewrite Hkeys; apply first_occurrences_NoDup|].
  exists evs. split; [done|]. split.
  - intros k. by rewrite Hkeys, first_occurrences_elem.
  - rewrite <-(length_fmap row_key out), Hkeys, <-(length_fmap ev_key evs).
    apply first_occurrences_length.
Qed.

Lemma one_row_per_key_witness :
  @digitize basic_rt doc_two_quantities ∅ = Ok out_two_quantities /\
  NoDup (row_key <$> out_two_quantities) /\ length out_two_quantities = 1%nat.
Proof.
  assert (Hrun : @digitize basic_rt doc_two_quantities ∅ = Ok out_two_quantities)
    by (vm_compute; reflexivity).
  split; [exact Hrun|].
  destruct (@one_row_per_key basic_rt _ _ _ Hrun) as (Hnd & _).
  split; [exact Hnd|reflexivity].
Defined.

(** X8: the scan only adds to the table.  A run over lines keeps the rows
    that are there in their order and adds at most one row for each line, at
    the end; a single line changes the counters of one key at most. *)
Theorem rows_only_grow `{PyRuntime} (st st' : scan_state) (lines : list text) :
  digitize_lines st lines = Ok st' ->
  (rows st).*1 `prefix_of` (rows st').*1 /\
  (length (rows st') <= length (rows st) + length lines)%nat /\
  forall line st1, digitize_line st line = Ok st1 ->
    exists k0, forall k, k <> k0 -> rows_get k (rows st1) = rows_get k (rows st).
Proof.
  intros Hrun. split; [|split].
  - revert st Hrun. induction lines as [|line lines IH]; intros st; simpl.
    + by intros [= <-].
    + destruct (digitize_line st line) as [st1|] eqn:Hd; [|done]. simpl. intros Hr.
      destruct (digitize_line_rows_grow _ _ _ Hd) as (Hp & _).
      by etrans; [exact Hp|apply IH].
  - revert st Hrun. induction lines as [|line lines IH]; intros st; simpl.
    + intros [= <-]. lia.
    + destruct (digitize_line st line) as [st1|] eqn:Hd; [|done]. simpl. intros Hr.
      destruct (digitize_line_rows_grow _ _ _ Hd) as (_ & Hlen & _).
      specialize (IH _ Hr). lia.
  - intros line st1 Hd. by destruct (digitize_line_rows_grow _ _ _ Hd) as (_ & _ & Hk).
Qed.

Lemma rows_only_grow_witness :
  exists st',
    @digitize_lines basic_rt st_in_embedded
      [utf8 "Пруток 12x500 5"; utf8 "Колонна Км-2"; utf8 "Пруток 12x500 5"] = Ok st' /\
    (rows st_in_embedded).*1 `prefix_of` (rows st').*1 /\
    (length (rows st') <= 3)%nat.
Proof.
  destruct (@digitize_lines basic_rt st_in_embedded
      [utf8 "Пруток 12x500 5"; utf8 "Колонна Км-2"; utf8 "Пруток 12x500 5"])
    as [st'|] eqn:Hrun; [|by vm_compute in Hrun].
  exists st'. split; [done|].
  destruct (@rows_only_grow basic_rt _ _ _ Hrun) as (Hp & Hlen & _).
  split; [exact Hp|exact Hlen].
Defined.

(** ** What the keys hold *)

Section KeyFacts.
Context `{PyRuntime}.
Import Re Pat.

Lemma action_event_rod (st : scan_state) (a : action) (ev : event) :
  action_event st a = Some ev ->
  exists element name d l q,
    a = Rod name d l q /\ current_element st = Some element /\
    ev_key ev = (element, name, d, l) /\ ev_qty ev = q /\
    ev_embedded ev = in_embedded st /\ ev_zd_count ev = embedded_qty st.
Proof.
  unfold action_event. destruct a; try done.
  destruct (current_element st) as [element|]; [|done].
  intros [= <-]. by exists element, name, diameter, length, qty.
Qed.

Lemma events_size_of_name (st : scan_state) (lines : list text) (evs : list event) :
  line_events st lines = Ok evs -> Forall (fun ev => size_of_name (ev_key ev)) evs.
Proof.
  apply (line_events_invariant (fun _ => True) (fun _ => True)); [|by apply Forall_true|done].
  intros st0 line a _ _ Ha. split; [done|]. intros ev Hev.
  destruct (action_event_rod _ _ _ Hev) as (e & n & d & l & q & -> & _ & -> & _).
  destruct (classify_rod_facts _ _ _ _ _ _ Ha) as (m & s & size & _ & _ & _ & Hs & _ & Hd & Hl).
  by exists size.
Qed.

Lemma size_of_name_inj (e n : text) (d l d' l' : Z) :
  size_of_name (e, n, d, l) -> size_of_name (e, n, d', l') -> d = d' /\ l = l'.
Proof.
  intros (s1 & H1 & Hd1 & Hl1) (s2 & H2 & Hd2 & Hl2).
  assert (s2 = s1) as -> by congruence. split; congruence.
Qed.

(** The code of a header line stands in the line. *)
Lemma header_code_segment (line : text) :
  is_header line = true ->
  exists code, header_code line = Some code /\ code <> [] /\ segment code line.
Proof.
  unfold is_header, header_code.
  destruct (search SPEC_ELEMENTS_RE line) as [m|] eqn:H1.
  - intros _. exact (search_group_nonempty SPEC_ELEMENTS_RE 1 line m eq_refl H1).
  - destruct (search SPEC_HEADER_RE line) as [m|] eqn:H2; [|done]. intros _.
    exact (search_group_nonempty SPEC_HEADER_RE 2 line m eq_refl H2).
Qed.

Lemma strip_by_idem (p : char -> bool) (s : text) :
  strip_by p (strip_by p s) = strip_by p s.
Proof.
  destruct (strip_by p s) as [|x m1] eqn:Hs; [done|].
  assert (Hx : p x = false).
  { unfold strip_by, rstrip_by in Hs.
    destruct (lstrip_by p s) as [|y t] eqn:Hl; [done|].
    assert (Hy : p y = false).
    { clear Hs. induction s as [|c s IH]; [done|]. simpl in Hl.
      destruct (p c) eqn:Hc; [by apply IH|]. by injection Hl as -> _. }
    destruct (rstrip_by_core p [] t y Hy) as (b' & b0 & _ & Hr).
    unfold rstrip_by in Hr. simpl in Hr. rewrite Hr in Hs. by injection Hs as ->. }
  destruct (exists_last (l := x :: m1)) as (m2 & y & Hm); [done|].
  assert (Hy : p y = false).
  { unfold strip_by, rstrip_by in Hs.
    assert (Hrev : lstrip_by p (reverse (lstrip_by p s)) = y :: reverse m2).
    { apply (inj reverse). rewrite Hs, Hm, reverse_cons, reverse_involutive. done. }
    clear Hs. revert Hrev. generalize (reverse (lstrip_by p s)). intros r.
    induction r as [|c r IH]; [done|]. simpl.
    destruct (p c) eqn:Hc; [by apply IH|]. by intros [= -> _]. }
  destruct (strip_by_core p [] [] m1 m2 x y Hx Hy Hm) as (a0 & a' & b' & b0 & Ha & Hb & Hk).
  symmetry in Ha, Hb. apply app_eq_nil in Ha as [_ ->]. apply app_eq_nil in Hb as [-> _].
  simpl in Hk. rewrite ?app_nil_r in Hk. exact Hk.
Qed.

Lemma events_from_lines (all lines : list text) (st : scan_state) (evs : list event) :
  (forall line, line ∈ lines -> line ∈ all) ->
  (forall element, current_element st = Some element ->
     exists line, line ∈ all /\ is_header line = true /\
       header_code line = Some element /\ element <> [] /\ segment element line) ->
  line_events st lines = Ok evs ->
  Forall (fun ev => key_from_lines all (ev_key ev)) evs.
Proof.
  intros Hall HI. apply (line_events_invariant (fun line => line ∈ all)
    (fun st => forall element, current_element st = Some element ->
       exists line, line ∈ all /\ is_header line = true /\
         header_code line = Some element /\ element <> [] /\ segment element line));
    [|by apply Forall_forall|done].
  clear st HI. intros st line a Hline HI Ha. split.
  - pose proof (classify_header _ _ _ Ha) as Hh.
    destruct (is_header line) eqn:Hhd.
    + subst a. simpl. intros element He.
      destruct (header_code_segment line Hhd) as (code & Hc & Hne & Hseg).
      exists line. repeat split; try done; congruence.
    + by rewrite (apply_action_element st a Hh).
  - intros ev Hev.
    destruct (action_event_rod _ _ _ Hev) as (e & n & d & l & q & -> & Hcur & -> & _).
    destruct (classify_rod_facts _ _ _ _ _ _ Ha) as (m & s & size & Hl & Hg & Hn & Hs & _).
    split; [by apply HI|]. exists line. split; [done|].
    destruct (search_group_nonempty LINE_RE g_fullname line m eq_refl Hl)
      as (u & Hu & _ & Hseg).
    assert (u = s) as -> by congruence.
    split; [|split].
    + rewrite Hn. eapply segment_trans; [apply strip_segment|done].
    + destruct (search_has_digit SIZE_RE n size eq_refl Hs) as (x & Hx & _).
      intros ->. by apply elem_of_nil in Hx.
    + rewrite Hn. apply strip_by_idem.
Qed.

End KeyFacts.

(** X9: the diameter and the length of a row are the numbers that [SIZE_RE]
    reads in the row's name, so the element and the name alone tell the rows
    apart: no two rows have the same element and name. *)
Theorem name_determines_size `{PyRuntime} (pages : list page)
    (object_counts : gmap text Z) (out : list out_row) :
  digitize pages object_counts = Ok out ->
  (forall r, r ∈ out ->
     exists size, Pat.search Pat.SIZE_RE (row_name r) = Some size /\
       int_group size Pat.g_diameter = Ok (row_diameter r) /\
       int_group size Pat.g_length = Ok (row_length r)) /\
  NoDup ((fun r => (row_element r, row_name r)) <$> out).
Proof.
  intros Hrun.
  destruct (digitize_rows pages object_counts out Hrun) as (evs & Hev & Hkeys & _).
  pose proof (events_size_of_name _ _ _ Hev) as Hsz. rewrite Forall_forall in Hsz.
  assert (Hrow : forall r, r ∈ out -> size_of_name (row_key r)).
  { intros r Hr. destruct (row_has_event _ _ _ _ r Hrun Hev Hr) as (ev & Hin & <-). auto. }
  split; [exact Hrow|].
  apply (NoDup_fmap_2_strong (fun r => (row_element r, row_name r))).
  - intros r1 r2 Hr1 Hr2 [= He Hn].
    pose proof (Hrow r1 Hr1) as H1. pose proof (Hrow r2 Hr2) as H2.
    unfold row_key in H1, H2. rewrite He, Hn in H1.
    destruct (size_of_name_inj _ _ _ _ _ _ H1 H2) as [Hd Hl].
    assert (Hk : row_key r1 = row_key r2) by (unfold row_key; congruence).
    assert (Hnd : NoDup (row_key <$> out)) by (rewrite Hkeys; apply first_occurrences_NoDup).
    apply list_elem_of_lookup in Hr1 as [i Hi]. apply list_elem_of_lookup in Hr2 as [j Hj].
    assert (i = j) as ->.
    { eapply (NoDup_lookup _ _ _ _ Hnd); rewrite list_lookup_fmap.
      - by rewrite Hi.
      - rewrite Hj. simpl. by rewrite Hk. }
    congruence.
  - apply (NoDup_fmap_1 row_key). rewrite Hkeys. apply first_occurrences_NoDup.
Qed.

Lemma name_determines_size_witness :
  @digitize basic_rt doc_column counts_column = Ok out_column /\
  NoDup ((fun r => (row_element r, row_name r)) <$> out_column).
Proof.
  assert (Hrun : @digitize basic_rt doc_column counts_column = Ok out_column)
    by (vm_compute; reflexivity).
  split; [exact Hrun|].
  exact (proj2 (@name_determines_size basic_rt _ _ _ Hrun)).
Defined.

(** X10: nothing in a row is made up.  The element of every row is the code
    that a section marker or element header of the scanned pages announces,
    and the name of every row stands, letter for letter, in a scanned line;
    neither is empty, and the name has no white space at its ends. *)
Theorem rows_come_from_lines `{PyRuntime} (pages : list page)
    (object_counts : gmap text Z) (out : list out_row) (r : out_row) :
  digitize pages object_counts = Ok out -> r ∈ out ->
  (exists line, line ∈ document_lines pages /\ is_header line = true /\
     header_code line = Some (row_element r) /\ row_element r <> [] /\
     segment (row_element r) line) /\
  (exists line, line ∈ document_lines pages /\ segment (row_name r) line /\
     row_name r <> [] /\ strip (row_name r) = row_name r).
Proof.
  intros Hrun Hr.
  destruct (digitize_rows pages object_counts out Hrun) as (evs & Hev & _ & _).
  destruct (row_has_event _ _ _ _ r Hrun Hev Hr) as (ev & Hin & Hk).
  assert (Hfrom : Forall (fun ev => key_from_lines (document_lines pages) (ev_key ev)) evs).
  { apply (events_from_lines _ (document_lines pages) scan_init); [done|done|exact Hev]. }
  rewrite Forall_forall in Hfrom. specialize (Hfrom ev Hin).
  rewrite Hk in Hfrom. exact Hfrom.
Qed.

Lemma rows_come_from_lines_witness :
  @digitize basic_rt doc_column counts_column = Ok out_column /\
  forall r, r ∈ out_column ->
    row_element r <> [] /\ row_name r <> [] /\ strip (row_name r) = row_name r.
Proof.
  assert (Hrun : @digitize basic_rt doc_column counts_column = Ok out_column)
    by (vm_compute; reflexivity).
  split; [exact Hrun|]. intros r Hr.
  destruct (@rows_come_from_lines basic_rt _ _ _ r Hrun Hr)
    as ((l1 & _ & _ & _ & He & _) & (l2 & _ & _ & Hn & Hs)).
  done.
Defined.

(** ** Signs *)

Section Signs.
Context `{PyRuntime}.
Hypothesis decimal_nonneg : forall c d, uni_decimal c = Some d -> (0 <= d)%Z.
Import Re Pat.

Lemma foldl_digits_nonneg (ds : list Z) (a : Z) :
  Forall (fun d => 0 <= d)%Z ds -> (0 <= a)%Z ->
  (0 <= foldl (fun a d => a * 10 + d) a ds)%Z.
Proof.
  intros Hds. revert a. induction Hds as [|d ds Hd Hds IH]; intros a Ha; simpl; [done|].
  apply IH. lia.
Qed.

Lemma number_value_nonneg (u : text) : (0 <= number_value u)%Z.
Proof.
  unfold number_value, int_value. apply foldl_digits_nonneg; [|done].
  apply Forall_forall. intros d Hd. apply list_elem_of_omap in Hd as (c & _ & Hc).
  by eapply decimal_nonneg.
Qed.

Lemma int_group_nonneg (p : pattern) (n : nat) (s : text) (m : caps) (v : Z) :
  group_from is_number n (re p) = true -> search p s = Some m ->
  int_group m n = Ok v -> (0 <= v)%Z.
Proof.
  intros Hg Hs. destruct (int_group_number p n s m Hg Hs) as (u & _ & _ & _ & _ & ->).
  destruct (too_many_digits (length u)); [done|]. intros [= <-].
  apply number_value_nonneg.
Qed.

Lemma events_nonneg (st : scan_state) (lines : list text) (evs : list event) :
  (0 <= embedded_qty st)%Z -> line_events st lines = Ok evs ->
  Forall (fun ev => 0 <= ev_qty ev /\ 0 <= ev_zd_count ev /\
                    0 <= (ev_key ev).1.2 /\ 0 <= (ev_key ev).2)%Z evs.
Proof.
  intros HI. apply (line_events_invariant (fun _ => True)
    (fun st => 0 <= embedded_qty st)%Z); [|by apply Forall_true|done].
  clear st HI. intros st line a _ HI Ha. split.
  - destruct a.
    + exact HI.
    + done.
    + destruct (classify_quantity_facts _ _ _ Ha) as (m & Hs & Hq).
      exact (int_group_nonneg EMBEDDED_LINE_RE 2 line m q eq_refl Hs Hq).
    + exact HI.
    + unfold apply_action.
      destruct (action_event st (Rod name diameter length qty)); exact HI.
  - intros ev Hev.
    destruct (action_event_rod _ _ _ Hev) as (e & n & d & l & q & -> & _ & -> & -> & _ & ->).
    destruct (classify_rod_facts _ _ _ _ _ _ Ha) as (m & s & size & Hl & _ & _ & Hs & Hq & Hd & Hlen).
    simpl. repeat split; try done.
    + exact (int_group_nonneg LINE_RE g_qty line m q eq_refl Hl Hq).
    + exact (int_group_nonneg SIZE_RE g_diameter n size d eq_refl Hs Hd).
    + exact (int_group_nonneg SIZE_RE g_length n size l eq_refl Hs Hlen).
Qed.

Lemma sum_qty_nonneg (b : bool) (k : key) (evs : list event) :
  Forall (fun ev => 0 <= ev_qty ev)%Z evs -> (0 <= sum_qty b k evs)%Z.
Proof.
  induction evs as [|ev evs IH] using rev_ind; [done|].
  intros [Hevs Hev]%Forall_app. rewrite Forall_singleton in Hev.
  rewrite sum_qty_snoc. specialize (IH Hevs).
  destruct (bool_decide (ev_embedded ev = b) && bool_decide (ev_key ev = k)); lia.
Qed.

Lemma last_zd_count_nonneg (k : key) (evs : list event) :
  Forall (fun ev => 0 <= ev_zd_count ev)%Z evs -> (0 <= last_zd_count k evs)%Z.
Proof.
  induction evs as [|ev evs IH] using rev_ind; [done|].
  intros [Hevs Hev]%Forall_app. rewrite Forall_singleton in Hev.
  rewrite last_zd_count_snoc. specialize (IH Hevs).
  by destruct (ev_embedded ev && bool_decide (ev_key ev = k)).
Qed.

Lemma digitize_nonneg (pages : list page) (oc : gmap text Z) (out : list out_row)
    (r : out_row) :
  (forall code n, oc !! code = Some n -> 0 <= n)%Z ->
  digitize pages oc = Ok out -> r ∈ out -> row_nonneg r.
Proof.
  intros Hoc Hrun Hr. unfold row_nonneg.
  destruct (digitize_rows pages oc out Hrun) as (evs & Hev & _ & Hrows).
  destruct (Hrows r Hr) as (Hd & Hz & Hc).
  pose proof (events_nonneg scan_init _ _ (Z.le_refl 0) Hev) as Hnn.
  destruct (row_has_event _ _ _ _ r Hrun Hev Hr) as (ev & Hin & Hk).
  assert (Hq : Forall (fun ev => 0 <= ev_qty ev)%Z evs).
  { eapply Forall_impl; [exact Hnn|]. by intros ? (? & _). }
  assert (Hzd : Forall (fun ev => 0 <= ev_zd_count ev)%Z evs).
  { eapply Forall_impl; [exact Hnn|]. by intros ? (_ & ? & _). }
  rewrite Forall_forall in Hnn. destruct (Hnn ev Hin) as (_ & _ & Hdd & Hll).
  rewrite Hk in Hdd, Hll. simpl in Hdd, Hll.
  destruct (digitize_result_rows pages oc out Hrun) as (st & _ & Hout).
  rewrite Hout in Hr. destruct (result_row_fields _ _ _ Hr) as [Hm Ht].
  assert (Hobj : (0 <= row_objects r)%Z).
  { rewrite Hm. unfold object_multiplier.
    destruct (oc !! row_element r) as [n|] eqn:E; simpl; [by eapply Hoc|lia]. }
  pose proof (sum_qty_nonneg false (row_key r) evs Hq).
  pose proof (sum_qty_nonneg true (row_key r) evs Hq).
  pose proof (last_zd_count_nonneg (row_key r) evs Hzd).
  rewrite Ht. rewrite Hd, Hz, Hc. repeat split; try done. nia.
Qed.

Lemma extract_lookup (p : page) (rest : list page) (counts : gmap text Z) :
  extract_object_counts (p :: rest) = Ok counts ->
  forall code,
    counts !! code =
    number_value <$> last_pair code (pair_of <$> findall OBJECT_RE (page_text p)).
Proof.
  unfold extract_object_counts. fold (page_text p). intros Hd code.
  assert (Hms : Forall (fun m => exists u, group m 2 = Some u /\ u <> [] /\
                          forallb isdecimal u = true)
                  (findall OBJECT_RE (page_text p))).
  { apply Forall_forall. intros m Hm.
    destruct (findall_object_number _ m Hm) as (u & ? & ? & ? & _). eauto. }
  rewrite (object_dict_lookup ∅ counts _ Hms Hd code).
  by destruct (last_pair code _).
Qed.

Lemma extract_nonneg (pages : list page) (counts : gmap text Z) :
  extract_object_counts pages = Ok counts ->
  forall code n, counts !! code = Some n -> (0 <= n)%Z.
Proof.
  destruct pages as [|p rest]; [done|]. intros Hd code n.
  rewrite (extract_lookup p rest counts Hd code).
  destruct (last_pair code _) as [ds|]; [|done]. simpl. intros [= <-].
  apply number_value_nonneg.
Qed.

End Signs.

Section Document.
Context `{PyRuntime}.
Import Re Pat.

Lemma object_dict_outcome (s : text) (acc : gmap text Z) (ms : list caps) :
  Forall (fun m => exists u, group m 2 = Some u /\ u <> [] /\
                     forallb isdecimal u = true /\ segment u s) ms ->
  (exists d, object_dict acc ms = Ok d) \/
  (object_dict acc ms = Raise ValueError /\ fits s = false).
Proof.
  intros Hms. revert acc.
  induction Hms as [|m ms (u & Hu & Hne & Hdig & Hseg) Hms IH]; intros acc.
  - left. by exists acc.
  - cbn [object_dict]. rewrite Hu. change (default [] (Some u)) with u.
    rewrite (py_int_number u Hne Hdig).
    destruct (too_many_digits (length u)) eqn:Hlong.
    + right. split; [done|]. by eapply number_too_long.
    + apply IH.
Qed.

Lemma extract_outcome (p : page) (rest : list page) :
  (exists counts, extract_object_counts (p :: rest) = Ok counts) \/
  (extract_object_counts (p :: rest) = Raise ValueError /\ fits (page_text p) = false).
Proof.
  unfold extract_object_counts. fold (page_text p).
  apply object_dict_outcome, Forall_forall. intros m Hm.
  exact (findall_object_number _ m Hm).
Qed.

End Document.

(** X11: no number of a row is negative (diameter, length, the three
    counters, the multiplier, the total), for object counts that are not
    negative and so for those that [extract_object_counts] reads from page
    0.  The decimal digits of the runtime are taken to have values from 0
    on, as those of Unicode have. *)
Theorem no_negative_numbers `{PyRuntime} (pages : list page) :
  (forall c d, uni_decimal c = Some d -> (0 <= d)%Z) ->
  (forall object_counts out r,
     (forall code n, object_counts !! code = Some n -> (0 <= n)%Z) ->
     digitize pages object_counts = Ok out -> r ∈ out -> row_nonneg r) /\
  (forall out r, digitize_document pages = Ok out -> r ∈ out -> row_nonneg r).
Proof.
  intros Hdec. split.
  - intros oc out r. by apply digitize_nonneg.
  - intros out r. unfold digitize_document.
    destruct (extract_object_counts pages) as [counts|] eqn:He; [|done]. simpl.
    apply digitize_nonneg; [done|]. by eapply extract_nonneg.
Qed.

Lemma no_negative_numbers_witness :
  @digitize_document basic_rt doc_with_noise = Ok out_with_noise /\
  Forall row_nonneg out_with_noise.
Proof.
  assert (Hrun : @digitize_document basic_rt doc_with_noise = Ok out_with_noise)
    by (vm_compute; reflexivity).
  split; [exact Hrun|]. apply Forall_forall. intros r Hr.
  apply (proj2 (@no_negative_numbers basic_rt doc_with_noise
    ltac:(intros c d; simpl; unfold basic_decimal;
          destruct ((48 <=? c) && (c <=? 57)) eqn:E; [|done];
          intros [= <-]; apply andb_true_iff in E as [E _];
          apply N.leb_le in E; lia)) out_with_noise r Hrun Hr).
Defined.

(** X12: the core of [process_pdf].  On a document without pages it raises
    [IndexError]; on any other document the only error is the [ValueError]
    of a number too long for [int], on page 0 or in a scanned line, and
    there is none when all numbers fit.  In the result the multiplier of a
    row is the last number that page 0 pairs with the row's element code,
    and 1 when page 0 does not list that code. *)
Theorem digitize_document_outcome `{PyRuntime} (pages : list page) :
  (pages = [] -> digitize_document pages = Raise IndexError) /\
  (forall e, digitize_document pages = Raise e ->
     (pages = [] /\ e = IndexError) \/
     (exists p rest, pages = p :: rest /\ e = ValueError /\
        (fits (page_text p) = false \/
         exists line, line ∈ document_lines pages /\ fits line = false))) /\
  (forall p rest, pages = p :: rest -> fits (page_text p) = true ->
     Forall (fun line => fits line = true) (document_lines pages) ->
     returns (digitize_document pages)) /\
  (forall out, digitize_document pages = Ok out ->
     exists p rest, pages = p :: rest /\
       forall r, r ∈ out ->
         row_objects r =
         default 1%Z (number_value <$>
           last_pair (row_element r)
             (pair_of <$> Pat.findall Pat.OBJECT_RE (page_text p)))).
Proof.
  split; [by intros ->|]. split; [|split].
  - intros e. destruct pages as [|p rest]; [by intros [= <-]; left|].
    intros He. right. exists p, rest. split; [done|].
    unfold digitize_document in He.
    destruct (extract_outcome p rest) as [[counts Hc]|[Hc Hf]]; rewrite Hc in He.
    + simpl in He. destruct (digitize_outcome (p :: rest) counts) as [[out Ho]|[Hr Hl]];
        [congruence|]. split; [congruence|]. by right.
    + simpl in He. split; [congruence|]. by left.
  - intros p rest -> Hp Hl. unfold digitize_document.
    destruct (extract_outcome p rest) as [[counts Hc]|[Hc Hf]]; [|congruence].
    rewrite Hc. simpl. by apply digitize_returns.
  - intros out. destruct pages as [|p rest]; [done|]. unfold digitize_document.
    destruct (extract_object_counts (p :: rest)) as [counts|] eqn:Hc; [|done]. simpl.
    intros Hrun. exists p, rest. split; [done|]. intros r Hr.
    destruct (digitize_result_rows _ _ _ Hrun) as (st & _ & Hout). rewrite Hout in Hr.
    destruct (result_row_fields _ _ _ Hr) as [Hm _].
    rewrite Hm. unfold object_multiplier. by rewrite (extract_lookup p rest counts Hc).
Qed.

Lemma digitize_document_outcome_witness :
  @digitize_document basic_rt doc_with_noise = Ok out_with_noise /\
  forall r, r ∈ out_with_noise -> row_objects r = 6%Z.
Proof.
  assert (Hrun : @digitize_document basic_rt doc_with_noise = Ok out_with_noise)
    by (vm_compute; reflexivity).
  split; [exact Hrun|]. intros r Hr.
  destruct (@digitize_document_outcome basic_rt doc_with_noise) as (_ & _ & _ & Hm).
  destruct (Hm _ Hrun) as (p & rest & Hp & Hrows).
  rewrite (Hrows r Hr). injection Hp as <- <-.
  unfold out_with_noise in Hr.
  repeat (apply elem_of_cons in Hr as [->|Hr]; [vm_compute; reflexivity|]).
  by apply elem_of_nil in Hr.
Defined.
